(** * Plant-disease prediction: the analysis session of [App]

    A shallow embedding of [src/types.ts] (the data model followed by the
    [App] component) and the properties of [submitAnalysis]: how the streamed
    answer is accumulated, parsed and committed to the history of the active
    plant, and what every failure path leaves behind. *)

From Stdlib Require Import List String Ascii Bool Arith ZArith QArith Lia.
From Stdlib Require Import DecimalString.
Import ListNotations.

Local Open Scope list_scope.
Local Open Scope nat_scope.
Local Open Scope string_scope.

(** [c |> f |> g] reads like the statements of a handler, one per line. *)
Notation "c |> f" := (f c) (at level 45, left associativity, only parsing).

(* ================================================================== *)
(** ** JavaScript values and objects *)
(* ================================================================== *)

(** The values [JSON.parse] can return.  A number is kept as the exact
    rational of its decimal literal. *)
#[warnings="-register-all"]
Inductive JSValue : Type :=
| JNull
| JBool (b : bool)
| JNumber (q : Q)
| JString (s : string)
| JArray (items : list JSValue)
| JObject (props : list (string * JSValue)).

(** An object is its list of own properties in insertion order. *)
Definition JSObject := list (string * JSValue).

(** [o[k]] on an object; [None] is [undefined]. *)
Fixpoint get_prop (k : string) (o : JSObject) : option JSValue :=
  match o with
  | [] => None
  | (k', v) :: rest => if String.eqb k' k then Some v else get_prop k rest
  end.

(** [o[k] = v]: an existing key keeps its position, a new key goes last. *)
Fixpoint set_prop (k : string) (v : JSValue) (o : JSObject) : JSObject :=
  match o with
  | [] => [(k, v)]
  | (k', v') :: rest =>
      if String.eqb k' k then (k', v) :: rest else (k', v') :: set_prop k v rest
  end.

Definition index_key (i : nat) : string :=
  NilEmpty.string_of_uint (Nat.to_uint i).

Fixpoint indexed {A} (f : A -> JSValue) (i : nat) (l : list A) : JSObject :=
  match l with
  | [] => []
  | x :: rest => (index_key i, f x) :: indexed f (S i) rest
  end.

(** The own enumerable properties copied by a spread [{...v}]: those of an
    object, the indices of an array or of a string, none for [null], a
    boolean or a number. *)
Definition own_props (v : JSValue) : JSObject :=
  match v with
  | JObject props => props
  | JArray items => indexed (fun x => x) 0 items
  | JString s => indexed (fun ch => JString (String ch "")) 0 (list_ascii_of_string s)
  | JNull | JBool _ | JNumber _ => []
  end.

(* ================================================================== *)
(** ** The data model of types.ts *)
(* ================================================================== *)

Record Location := mkLocation { latitude : Q; longitude : Q }.

Record EnvironmentalData := mkEnvironmentalData {
  sunlight : string;
  watering : string;
  notes : string;
  organicPreference : bool;
  location : option Location
}.

(** The object an [EnvironmentalData] is at run time. *)
Definition js_of_EnvironmentalData (e : EnvironmentalData) : JSValue :=
  JObject
    [ ("sunlight", JString (sunlight e));
      ("watering", JString (watering e));
      ("notes", JString (notes e));
      ("organicPreference", JBool (organicPreference e));
      ("location",
        match location e with
        | None => JNull
        | Some l => JObject [ ("latitude", JNumber (latitude l));
                              ("longitude", JNumber (longitude l)) ]
        end) ].

(** The keys of [interface PredictionData], lines 24-37. *)
Definition PredictionData_keys : list string :=
  [ "plantName"; "isHealthy"; "diseaseName"; "description";
    "treatmentSuggestions"; "benefits"; "confidenceScore";
    "preventativeCareTips"; "progressAssessment"; "comparativeAnalysis";
    "pestIdentification"; "nutrientDeficiencies" ].

(** The keys [interface AnalysisRecord] adds, lines 39-44. *)
Definition AnalysisRecord_keys : list string :=
  [ "id"; "date"; "imageUrl"; "environmentalData" ].

(** [JSON.parse(..) as PredictionData] is an unchecked cast, so a record is
    whatever object the literal of lines 137-143 builds. *)
Definition AnalysisRecord := JSObject.

Module PlantProfile.
Record t := mk {
  id : string;
  name : string;
  analysisHistory : list AnalysisRecord
}.
End PlantProfile.
Abbreviation PlantProfile := PlantProfile.t.

Record File := mkFile { fileName : string; fileBytes : string }.

(* ================================================================== *)
(** ** Exceptions and the fragment stream *)
(* ================================================================== *)

(** What a [catch] can receive, as far as the handlers tell values apart:
    a [SyntaxError], any other [Error], or a value that is no [Error]. *)
Inductive Thrown : Type :=
| SyntaxError (message : string)
| Error (message : string)
| NonError.

(** The async iterable returned by [analyzePlantImage]: the chunks it
    yields, then normal completion ([None]) or a throw.  Only streams that
    come to an end are considered. *)
Record Stream := mkStream {
  chunks : list string;
  ending : option Thrown
}.

(** One call of [analyzePlantImage(imageFile, environmentalData, previousAnalysis)]. *)
Record Request := mkRequest {
  req_image : File;
  req_environment : EnvironmentalData;
  req_previous : option AnalysisRecord
}.

(* ================================================================== *)
(** ** The state of the component *)
(* ================================================================== *)

Inductive View := PROFILER | ANALYSIS | RESULT.

(** The [useState] cells of [App], lines 75-85. *)
Record AppState := mkApp {
  activePlant : option PlantProfile;
  imageFile : option File;
  imageUrl : option string;
  environmentalData : EnvironmentalData;
  streamingText : string;
  finalPrediction : option AnalysisRecord;
  isLoading : bool;
  error : option string;
  currentView : View
}.

(** What lives outside the component: the profiles held by [usePlantStore],
    how many [Date]s and object URLs were created so far, the requests sent
    to the engine and the lines written by [console.error]. *)
Record World := mkWorld {
  plantProfiles : list PlantProfile;
  dateCalls : nat;
  urlCalls : nat;
  requests : list Request;
  consoleErrors : list (string * string)
}.

Record Config := mkConfig { app : AppState; world : World }.

Definition initialEnvironmentalData : EnvironmentalData :=
  mkEnvironmentalData "" "" "" false None.

Definition initialApp : AppState :=
  mkApp None None None initialEnvironmentalData "" None false None PROFILER.

Definition initialConfig : Config :=
  mkConfig initialApp (mkWorld [] 0 0 [] []).

Definition onApp (f : AppState -> AppState) (c : Config) : Config :=
  mkConfig (f (app c)) (world c).

Definition onWorld (f : World -> World) (c : Config) : Config :=
  mkConfig (app c) (f (world c)).

Definition setActivePlant (x : option PlantProfile) : Config -> Config :=
  onApp (fun a => mkApp x (imageFile a) (imageUrl a) (environmentalData a)
    (streamingText a) (finalPrediction a) (isLoading a) (error a) (currentView a)).

Definition setImageFile (x : option File) : Config -> Config :=
  onApp (fun a => mkApp (activePlant a) x (imageUrl a) (environmentalData a)
    (streamingText a) (finalPrediction a) (isLoading a) (error a) (currentView a)).

Definition setImageUrl (x : option string) : Config -> Config :=
  onApp (fun a => mkApp (activePlant a) (imageFile a) x (environmentalData a)
    (streamingText a) (finalPrediction a) (isLoading a) (error a) (currentView a)).

Definition setEnvironmentalData (x : EnvironmentalData) : Config -> Config :=
  onApp (fun a => mkApp (activePlant a) (imageFile a) (imageUrl a) x
    (streamingText a) (finalPrediction a) (isLoading a) (error a) (currentView a)).

(** [setStreamingText] takes an updater, as in [setStreamingText(prev => prev + chunk)]. *)
Definition updStreamingText (f : string -> string) : Config -> Config :=
  onApp (fun a => mkApp (activePlant a) (imageFile a) (imageUrl a) (environmentalData a)
    (f (streamingText a)) (finalPrediction a) (isLoading a) (error a) (currentView a)).

Definition setStreamingText (x : string) : Config -> Config :=
  updStreamingText (fun _ => x).

Definition setFinalPrediction (x : option AnalysisRecord) : Config -> Config :=
  onApp (fun a => mkApp (activePlant a) (imageFile a) (imageUrl a) (environmentalData a)
    (streamingText a) x (isLoading a) (error a) (currentView a)).

Definition setIsLoading (x : bool) : Config -> Config :=
  onApp (fun a => mkApp (activePlant a) (imageFile a) (imageUrl a) (environmentalData a)
    (streamingText a) (finalPrediction a) x (error a) (currentView a)).

Definition setError (x : option string) : Config -> Config :=
  onApp (fun a => mkApp (activePlant a) (imageFile a) (imageUrl a) (environmentalData a)
    (streamingText a) (finalPrediction a) (isLoading a) x (currentView a)).

Definition setCurrentView (x : View) : Config -> Config :=
  onApp (fun a => mkApp (activePlant a) (imageFile a) (imageUrl a) (environmentalData a)
    (streamingText a) (finalPrediction a) (isLoading a) (error a) x).

Definition setPlantProfiles (x : list PlantProfile) : Config -> Config :=
  onWorld (fun w => mkWorld x (dateCalls w) (urlCalls w) (requests w) (consoleErrors w)).

Definition tickDate : Config -> Config :=
  onWorld (fun w => mkWorld (plantProfiles w) (S (dateCalls w)) (urlCalls w)
    (requests w) (consoleErrors w)).

Definition tickUrl : Config -> Config :=
  onWorld (fun w => mkWorld (plantProfiles w) (dateCalls w) (S (urlCalls w))
    (requests w) (consoleErrors w)).

Definition logRequest (r : Request) : Config -> Config :=
  onWorld (fun w => mkWorld (plantProfiles w) (dateCalls w) (urlCalls w)
    (requests w ++ [r]) (consoleErrors w)).

Definition consoleError (label payload : string) : Config -> Config :=
  onWorld (fun w => mkWorld (plantProfiles w) (dateCalls w) (urlCalls w)
    (requests w) (consoleErrors w ++ [(label, payload)])).

(* ================================================================== *)
(** ** A reader for JSON text *)
(* ================================================================== *)

(** [JSON.parse] belongs to the host.  The development is parametric in it;
    this reader of the JSON grammar (RFC 8259) over ASCII text instantiates
    the parameter wherever a concrete payload is run. *)
Module JSON.

Local Open Scope char_scope.
Local Open Scope nat_scope.

Definition is_ws (c : ascii) : bool :=
  match c with
  | " " | "009" | "010" | "013" => true
  | _ => false
  end.

Definition digit_val (c : ascii) : option nat :=
  let n := nat_of_ascii c in
  if (48 <=? n) && (n <=? 57) then Some (n - 48) else None.

Definition hex_val (c : ascii) : option nat :=
  let n := nat_of_ascii c in
  if (48 <=? n) && (n <=? 57) then Some (n - 48)
  else if (65 <=? n) && (n <=? 70) then Some (n - 55)
  else if (97 <=? n) && (n <=? 102) then Some (n - 87)
  else None.

Fixpoint skip_ws (cs : list ascii) : list ascii :=
  match cs with
  | c :: rest => if is_ws c then skip_ws rest else cs
  | [] => []
  end.

(** A maximal run of decimal digits, most significant first. *)
Fixpoint digits (cs : list ascii) : list nat * list ascii :=
  match cs with
  | c :: rest =>
      match digit_val c with
      | Some d => let '(ds, r) := digits rest in (d :: ds, r)
      | None => ([], cs)
      end
  | [] => ([], [])
  end.

Definition nat_of_digits (ds : list nat) : nat :=
  fold_left (fun acc d => 10 * acc + d) ds 0.

(** A code unit written [\uXXXX], as the bytes of its UTF-8 form. *)
Definition utf8 (n : nat) : list ascii :=
  if n <? 128 then [ascii_of_nat n]
  else if n <? 2048 then
    [ascii_of_nat (192 + n / 64); ascii_of_nat (128 + n mod 64)]
  else
    [ascii_of_nat (224 + n / 4096); ascii_of_nat (128 + (n / 64) mod 64);
     ascii_of_nat (128 + n mod 64)].

Definition prepend (cs : list ascii) (s : string) : string :=
  fold_right String s cs.

Definition escape (e : ascii) : option ascii :=
  match e with
  | "034" => Some "034"
  | "\" => Some "\"
  | "/" => Some "/"
  | "b" => Some "008"
  | "f" => Some "012"
  | "n" => Some "010"
  | "r" => Some "013"
  | "t" => Some "009"
  | _ => None
  end.

(** The characters of a string literal after its opening quote. *)
Fixpoint read_string (cs : list ascii) : option (string * list ascii) :=
  match cs with
  | [] => None
  | "034" :: rest => Some (EmptyString, rest)
  | "\" :: "u" :: h1 :: h2 :: h3 :: h4 :: rest =>
      match hex_val h1, hex_val h2, hex_val h3, hex_val h4, read_string rest with
      | Some a, Some b, Some c, Some d, Some (s, r) =>
          Some (prepend (utf8 (((a * 16 + b) * 16 + c) * 16 + d)) s, r)
      | _, _, _, _, _ => None
      end
  | "\" :: e :: rest =>
      match escape e, read_string rest with
      | Some c, Some (s, r) => Some (String c s, r)
      | _, _ => None
      end
  | c :: rest =>
      if nat_of_ascii c <? 32 then None
      else match read_string rest with
           | Some (s, r) => Some (String c s, r)
           | None => None
           end
  end.

(** int = "0" / digit1-9 *DIGIT *)
Definition read_int (cs : list ascii) : option (list nat * list ascii) :=
  match digits cs with
  | ([], _) => None
  | ([0], r) => Some ([0], r)
  | (0 :: _, _) => None
  | (ds, r) => Some (ds, r)
  end.

Definition read_frac (cs : list ascii) : option (list nat * list ascii) :=
  match cs with
  | "." :: rest =>
      match digits rest with
      | ([], _) => None
      | (ds, r) => Some (ds, r)
      end
  | _ => Some ([], cs)
  end.

Definition read_exp (cs : list ascii) : option (Z * list ascii) :=
  let unsigned (neg : bool) (rest : list ascii) :=
    match digits rest with
    | ([], _) => None
    | (ds, r) =>
        let e := Z.of_nat (nat_of_digits ds) in
        Some (if neg then Z.opp e else e, r)
    end in
  match cs with
  | "e" :: "-" :: rest | "E" :: "-" :: rest => unsigned true rest
  | "e" :: "+" :: rest | "E" :: "+" :: rest => unsigned false rest
  | "e" :: rest | "E" :: rest => unsigned false rest
  | _ => Some (0%Z, cs)
  end.

Definition read_number (cs : list ascii) : option (Q * list ascii) :=
  let '(neg, cs1) := match cs with "-" :: rest => (true, rest) | _ => (false, cs) end in
  match read_int cs1 with
  | None => None
  | Some (ip, cs2) =>
      match read_frac cs2 with
      | None => None
      | Some (fp, cs3) =>
          match read_exp cs3 with
          | None => None
          | Some (e, cs4) =>
              let m := Z.of_nat (nat_of_digits (ip ++ fp)) in
              let q := (inject_Z m * Qpower (inject_Z 10) (e - Z.of_nat (List.length fp)))%Q in
              Some (Qred (if neg then Qopp q else q), cs4)
          end
      end
  end.

Fixpoint read_value (fuel : nat) (cs : list ascii) {struct fuel}
    : option (JSValue * list ascii) :=
  match fuel with
  | O => None
  | S fuel =>
      match skip_ws cs with
      | "n" :: "u" :: "l" :: "l" :: rest => Some (JNull, rest)
      | "t" :: "r" :: "u" :: "e" :: rest => Some (JBool true, rest)
      | "f" :: "a" :: "l" :: "s" :: "e" :: rest => Some (JBool false, rest)
      | "034" :: rest =>
          match read_string rest with
          | Some (s, r) => Some (JString s, r)
          | None => None
          end
      | "[" :: rest =>
          match skip_ws rest with
          | "]" :: r => Some (JArray [], r)
          | _ =>
              match read_items fuel rest with
              | Some (vs, r) => Some (JArray vs, r)
              | None => None
              end
          end
      | "{" :: rest =>
          match skip_ws rest with
          | "}" :: r => Some (JObject [], r)
          | _ =>
              match read_members fuel rest with
              | Some (ms, r) =>
                  Some (JObject (fold_left (fun o m => set_prop (fst m) (snd m) o) ms []), r)
              | None => None
              end
          end
      | other =>
          match read_number other with
          | Some (q, r) => Some (JNumber q, r)
          | None => None
          end
      end
  end

with read_items (fuel : nat) (cs : list ascii) {struct fuel}
    : option (list JSValue * list ascii) :=
  match fuel with
  | O => None
  | S fuel =>
      match read_value fuel cs with
      | Some (v, rest) =>
          match skip_ws rest with
          | "]" :: r => Some ([v], r)
          | "," :: r =>
              match read_items fuel r with
              | Some (vs, r') => Some (v :: vs, r')
              | None => None
              end
          | _ => None
          end
      | None => None
      end
  end

with read_members (fuel : nat) (cs : list ascii) {struct fuel}
    : option (list (string * JSValue) * list ascii) :=
  match fuel with
  | O => None
  | S fuel =>
      match skip_ws cs with
      | "034" :: rest =>
          match read_string rest with
          | Some (k, rest1) =>
              match skip_ws rest1 with
              | ":" :: rest2 =>
                  match read_value fuel rest2 with
                  | Some (v, rest3) =>
                      match skip_ws rest3 with
                      | "}" :: r => Some ([(k, v)], r)
                      | "," :: r =>
                          match read_members fuel r with
                          | Some (ms, r') => Some ((k, v) :: ms, r')
                          | None => None
                          end
                      | _ => None
                      end
                  | None => None
                  end
              | _ => None
              end
          | None => None
          end
      | _ => None
      end
  end.

(** The whole text must be one value, white space around it allowed. *)
Definition parse (text : string) : option JSValue :=
  let cs := list_ascii_of_string text in
  match read_value (2 * List.length cs + 2) cs with
  | Some (v, rest) =>
      match skip_ws rest with
      | [] => Some v
      | _ :: _ => None
      end
  | None => None
  end.

End JSON.

(* ================================================================== *)
(** ** The history store *)
(* ================================================================== *)

Definition NotFoundError : Thrown := Error "NotFoundError".

Definition withRecord (p : PlantProfile) (record : AnalysisRecord) : PlantProfile :=
  PlantProfile.mk (PlantProfile.id p) (PlantProfile.name p)
    (PlantProfile.analysisHistory p ++ [record]).

(** Modelled from the spec: [addAnalysisToPlant] comes from
    [hooks/usePlantStore], which is not among the sources.  Spec 4.3:
    "append(profileId, record) -> updated profile, fails with NotFoundError
    if profileId does not exist.  Appending is the only mutation path for
    history". *)
Fixpoint addAnalysisToPlant (plantId : string) (record : AnalysisRecord)
    (profiles : list PlantProfile) : Thrown + list PlantProfile :=
  match profiles with
  | [] => inl NotFoundError
  | p :: rest =>
      if String.eqb (PlantProfile.id p) plantId
      then inr (withRecord p record :: rest)
      else match addAnalysisToPlant plantId record rest with
           | inr rest' => inr (p :: rest')
           | inl err => inl err
           end
  end.

(** The history the store holds for a plant identity. *)
Fixpoint historyOf (plantId : string) (profiles : list PlantProfile)
    : option (list AnalysisRecord) :=
  match profiles with
  | [] => None
  | p :: rest =>
      if String.eqb (PlantProfile.id p) plantId
      then Some (PlantProfile.analysisHistory p)
      else historyOf plantId rest
  end.

(** Modelled from the spec: [mostRecent] of spec 4.3, "returns the last
    element of that profile's history, or absent if empty". *)
Definition mostRecent (plantId : string) (profiles : list PlantProfile)
    : option AnalysisRecord :=
  match historyOf plantId profiles with
  | Some h => last (map Some h) None
  | None => None
  end.

(* ================================================================== *)
(** ** The handlers of App *)
(* ================================================================== *)

(** What the component takes from its host.  Calls that may answer
    differently each time are indexed by how many came before. *)
Record Host := mkHost {
  (** [JSON.parse]; [inl m] is a throw of [SyntaxError(m)]. *)
  JSON_parse : string -> string + JSValue;
  (** [new Date().toISOString()] and [.toLocaleString()] of the n-th [Date]. *)
  Date_toISOString : nat -> string;
  Date_toLocaleString : nat -> string;
  (** The n-th [URL.createObjectURL]. *)
  URL_createObjectURL : nat -> File -> string;
  (** The n-th call of [services/geminiService]'s [analyzePlantImage]. *)
  analyzePlantImage :
    nat -> File -> EnvironmentalData -> option AnalysisRecord -> Stream;
  (** [usePlantStore]'s [addPlant]: the new profile and the new list, or a throw. *)
  addPlant : string -> list PlantProfile -> Thrown + (PlantProfile * list PlantProfile)
}.

Definition parseErrorMessage : string :=
  "Failed to parse the AI response. The data might be malformed.".

Definition preconditionMessage : string :=
  "An image and an active plant profile are required.".

Definition unknownErrorMessage : string := "An unknown error occurred.".

Section Handlers.

Variable host : Host.

(** Lines 162-170. *)
Definition resetAnalysisState (c : Config) : Config :=
  c |> setImageFile None
    |> setImageUrl None
    |> setFinalPrediction None
    |> setStreamingText ""
    |> setError None
    |> setIsLoading false
    |> setEnvironmentalData initialEnvironmentalData.

(** Lines 87-91. *)
Definition handleStartAnalysis (plant : PlantProfile) (c : Config) : Config :=
  c |> resetAnalysisState
    |> setActivePlant (Some plant)
    |> setCurrentView ANALYSIS.

(** Lines 93-96. *)
Definition handleImageUpload (file : File) (c : Config) : Config :=
  let url := URL_createObjectURL host (urlCalls (world c)) file in
  c |> setImageFile (Some file)
    |> tickUrl
    |> setImageUrl (Some url).

(** Lines 98-109. *)
Definition handleQuickAnalysis (file : File) (c : Config) : Config :=
  let plantName := "New Plant - " ++ Date_toLocaleString host (dateCalls (world c)) in
  let c := tickDate c in
  match addPlant host plantName (plantProfiles (world c)) with
  | inr (newPlant, profiles) =>
      c |> setPlantProfiles profiles
        |> handleImageUpload file
        |> setActivePlant (Some newPlant)
        |> setCurrentView ANALYSIS
  | inl (SyntaxError m) | inl (Error m) => setError (Some m) c
  | inl NonError =>
      setError (Some "An unexpected error occurred while creating a new plant.") c
  end.

(** Lines 172-176. *)
Definition resetToHome (c : Config) : Config :=
  c |> resetAnalysisState
    |> setActivePlant None
    |> setCurrentView PROFILER.

(** *** submitAnalysis, lines 111-160 *)

(** Lines 117-121. *)
Definition enterStreaming (c : Config) : Config :=
  c |> setIsLoading true
    |> setError None
    |> setFinalPrediction None
    |> setStreamingText ""
    |> setCurrentView RESULT.

(** Lines 125-127. *)
Definition previousAnalysisOf (plant : PlantProfile) : option AnalysisRecord :=
  let history := PlantProfile.analysisHistory plant in
  if (0 <? List.length history)%nat
  then nth_error history (List.length history - 1)
  else None.

(** The body of the [for await], lines 132-133. *)
Definition receive (chunk : string) (st : string * Config) : string * Config :=
  let '(fullResponse, c) := st in
  (fullResponse ++ chunk, updStreamingText (fun prev => prev ++ chunk) c).

(** The loop over the chunks the stream yields. *)
Definition consume (fragments : list string) (st : string * Config) : string * Config :=
  fold_left (fun st chunk => receive chunk st) fragments st.

(** The object literal of lines 137-143. *)
Definition newAnalysisRecord (parsedData : JSValue) (file : File)
    (env : EnvironmentalData) (c : Config) : AnalysisRecord * Config :=
  let id := Date_toISOString host (dateCalls (world c)) in
  let c := tickDate c in
  let date := Date_toISOString host (dateCalls (world c)) in
  let c := tickDate c in
  let url := URL_createObjectURL host (urlCalls (world c)) file in
  let c := tickUrl c in
  (own_props parsedData
     |> set_prop "id" (JString id)
     |> set_prop "date" (JString date)
     |> set_prop "imageUrl" (JString url)
     |> set_prop "environmentalData" (js_of_EnvironmentalData env),
   c).

(** Lines 136-146, once the stream completed normally. *)
Definition commit (file : File) (plant : PlantProfile) (env : EnvironmentalData)
    (fullResponse : string) (c : Config) : option Thrown * Config :=
  match JSON_parse host fullResponse with
  | inl m => (Some (SyntaxError m), c)
  | inr parsedData =>
      let '(record, c) := newAnalysisRecord parsedData file env c in
      let c := setFinalPrediction (Some record) c in
      match addAnalysisToPlant (PlantProfile.id plant) record (plantProfiles (world c)) with
      | inr profiles => (None, setPlantProfiles profiles c)
      | inl err => (Some err, c)
      end
  end.

(** The [try] block, lines 125-146: what was thrown if anything, the
    local [fullResponse], and the configuration reached. *)
Definition tryBlock (file : File) (plant : PlantProfile) (env : EnvironmentalData)
    (c : Config) : option Thrown * string * Config :=
  let previousAnalysis := previousAnalysisOf plant in
  let stream :=
    analyzePlantImage host (List.length (requests (world c))) file env previousAnalysis in
  let c := logRequest (mkRequest file env previousAnalysis) c in
  let '(fullResponse, c) := consume (chunks stream) ("", c) in
  match ending stream with
  | Some err => (Some err, fullResponse, c)
  | None =>
      let '(thrown, c) := commit file plant env fullResponse c in
      (thrown, fullResponse, c)
  end.

(** The [catch] clause, lines 148-156. *)
Definition catchClause (err : Thrown) (fullResponse : string) (c : Config) : Config :=
  match err with
  | SyntaxError _ =>
      c |> setError (Some parseErrorMessage)
        |> consoleError "Full response received before parsing error:" fullResponse
  | Error m => setError (Some m) c
  | NonError => setError (Some unknownErrorMessage) c
  end.

Definition submitAnalysis (c : Config) : Config :=
  match imageFile (app c), activePlant (app c) with
  | Some file, Some plant =>
      let c1 := enterStreaming c in
      let '(thrown, fullResponse, c2) :=
        tryBlock file plant (environmentalData (app c)) c1 in
      let c3 :=
        match thrown with
        | Some err => catchClause err fullResponse c2
        | None => c2
        end in
      setIsLoading false c3
  | _, _ => setError (Some preconditionMessage) c
  end.

(** *** The same function, one suspension at a time

    [submitAnalysis] is [async]: it runs up to the first [await] of the
    [for await], is resumed once per chunk, and once more when the stream
    ends.  An [Attempt] is what the suspended call holds on to: the values
    its closure captured, the local [fullResponse], and what the stream
    has still to deliver. *)

Record Attempt := mkAttempt {
  att_file : File;
  att_plant : PlantProfile;
  att_environment : EnvironmentalData;
  att_fullResponse : string;
  att_pending : list string;
  att_ending : option Thrown
}.

(** From the call to the first [await], lines 112-131. *)
Definition begin (c : Config) : Config * option Attempt :=
  match imageFile (app c), activePlant (app c) with
  | Some file, Some plant =>
      let env := environmentalData (app c) in
      let c := enterStreaming c in
      let previousAnalysis := previousAnalysisOf plant in
      let stream :=
        analyzePlantImage host (List.length (requests (world c))) file env previousAnalysis in
      (logRequest (mkRequest file env previousAnalysis) c,
       Some (mkAttempt file plant env "" (chunks stream) (ending stream)))
  | _, _ => (setError (Some preconditionMessage) c, None)
  end.

(** What follows the loop: lines 136-146, or the throw of the stream;
    then [catch] and [finally]. *)
Definition settle (a : Attempt) (c : Config) : Config :=
  let '(thrown, c) :=
    match att_ending a with
    | Some err => (Some err, c)
    | None =>
        commit (att_file a) (att_plant a) (att_environment a) (att_fullResponse a) c
    end in
  let c :=
    match thrown with
    | Some err => catchClause err (att_fullResponse a) c
    | None => c
    end in
  setIsLoading false c.

(** One resumption: the next chunk if there is one, the end otherwise. *)
Definition resume (a : Attempt) (c : Config) : Config * option Attempt :=
  match att_pending a with
  | chunk :: rest =>
      let '(fullResponse, c) := receive chunk (att_fullResponse a, c) in
      (c, Some (mkAttempt (att_file a) (att_plant a) (att_environment a)
                  fullResponse rest (att_ending a)))
  | [] => (settle a c, None)
  end.

(** [n] resumptions in a row, nothing else running in between. *)
Fixpoint resumed (n : nat) (st : Config * option Attempt) : Config * option Attempt :=
  match n, st with
  | S n, (c, Some a) => resumed n (resume a c)
  | _, _ => st
  end.

End Handlers.

(* ================================================================== *)
(** ** What an observer sees *)
(* ================================================================== *)

Inductive Phase :=
| Streaming
| FailedWith (reason : string)
| SucceededWith (record : AnalysisRecord)
| Blank.

(** How an attempt stands, read off the state cells: under way while the
    loading flag is up, else failed if an error is set, else succeeded if a
    result is set.  The RESULT view, lines 233-254, tests the cells in this
    order (an empty error message, being falsy there, is shown by its last
    branch). *)
Definition phase (a : AppState) : Phase :=
  if isLoading a then Streaming
  else match error a with
       | Some reason => FailedWith reason
       | None =>
           match finalPrediction a with
           | Some record => SucceededWith record
           | None => Blank
           end
       end.

(** concat(F1..Fn), in arrival order. *)
Definition concatAll (fragments : list string) : string :=
  fold_right String.append "" fragments.

(** The field named [k] of a piece of structured data: the property of
    that name when the data is an object; data that is no object has no
    named field. *)
Definition fieldOf (data : JSValue) (k : string) : option JSValue :=
  match data with
  | JObject props => get_prop k props
  | JNull | JBool _ | JNumber _ | JString _ | JArray _ => None
  end.

(** The stream an attempt started in [c] for [file] and [plant] consumes. *)
Definition streamOf (host : Host) (c : Config) (file : File) (plant : PlantProfile) : Stream :=
  analyzePlantImage host (List.length (requests (world c))) file
    (environmentalData (app c)) (previousAnalysisOf plant).

(** *** The shape the spec asks of a payload (section 3)

    These follow the spec's words, not the code: nothing in the sources
    evaluates them. *)

Definition has_prop (k : string) (o : JSObject) : bool :=
  match get_prop k o with Some _ => true | None => false end.

Definition missesRequiredField (v : JSValue) : bool :=
  existsb (fun k => negb (has_prop k (own_props v))) PredictionData_keys.

Definition confidenceOutOfRange (v : JSValue) : bool :=
  match get_prop "confidenceScore" (own_props v) with
  | Some (JNumber q) => negb (Qle_bool 0 q && Qle_bool q 1)
  | _ => false
  end.

Definition progressAssessment_tags : list string :=
  [ "Improved"; "Worsened"; "Unchanged"; "N/A" ].

Definition progressTagInvalid (v : JSValue) : bool :=
  match get_prop "progressAssessment" (own_props v) with
  | Some (JString tag) => negb (existsb (String.eqb tag) progressAssessment_tags)
  | Some _ => true
  | None => false
  end.

(** *** Committing several records in a row *)

Fixpoint commitAll (plantId : string) (records : list AnalysisRecord)
    (profiles : list PlantProfile) : Thrown + list PlantProfile :=
  match records with
  | [] => inr profiles
  | record :: rest =>
      match addAnalysisToPlant plantId record profiles with
      | inr profiles' => commitAll plantId rest profiles'
      | inl err => inl err
      end
  end.

(* ================================================================== *)
(** ** The component as a transition system *)
(* ================================================================== *)

(** What can happen to the component: the callbacks it hands to its
    children (lines 181-186, 197-198, 212-215, 228), a call of
    [submitAnalysis], and the resumption of a call that is suspended.  No
    event is held back by what the view on screen enables. *)
Inductive Event :=
| StartAnalysis (plant : PlantProfile)
| ImageUpload (file : File)
| QuickAnalysis (file : File)
| EnvironmentChange (data : EnvironmentalData)
| AddPlant (name : string)
| BackToPlants
| Submit
| Resume (i : nat).

(** The component and the calls of [submitAnalysis] that are suspended. *)
Record System := mkSystem {
  config : Config;
  suspended : list Attempt
}.

Definition initialSystem : System := mkSystem initialConfig [].

Fixpoint replaceAt (i : nat) (a : option Attempt) (l : list Attempt) : list Attempt :=
  match l, i with
  | [], _ => []
  | _ :: rest, O => match a with Some a' => a' :: rest | None => rest end
  | x :: rest, S i => x :: replaceAt i a rest
  end.

Definition react (host : Host) (e : Event) (s : System) : System :=
  let c := config s in
  match e with
  | StartAnalysis plant => mkSystem (handleStartAnalysis plant c) (suspended s)
  | ImageUpload file => mkSystem (handleImageUpload host file c) (suspended s)
  | QuickAnalysis file => mkSystem (handleQuickAnalysis host file c) (suspended s)
  | EnvironmentChange data => mkSystem (setEnvironmentalData data c) (suspended s)
  | AddPlant name =>
      match addPlant host name (plantProfiles (world c)) with
      | inr (_, profiles) => mkSystem (setPlantProfiles profiles c) (suspended s)
      | inl _ => s
      end
  | BackToPlants => mkSystem (resetToHome c) (suspended s)
  | Submit =>
      match begin host c with
      | (c', Some a) => mkSystem c' (suspended s ++ [a])
      | (c', None) => mkSystem c' (suspended s)
      end
  | Resume i =>
      match nth_error (suspended s) i with
      | Some a =>
          let '(c', a') := resume host a c in
          mkSystem c' (replaceAt i a' (suspended s))
      | None => s
      end
  end.

Inductive reachable (host : Host) : System -> Prop :=
| reachable_initial : reachable host initialSystem
| reachable_react s e : reachable host s -> reachable host (react host e s).

(** While the loading flag is up, an image and a plant are selected. *)
Definition loadingImpliesReady (c : Config) : Prop :=
  isLoading (app c) = true ->
  imageFile (app c) <> None /\ activePlant (app c) <> None.

(* ================================================================== *)
(** ** What is rendered *)
(* ================================================================== *)

(** Truthiness, as the conditionals of the JSX use it. *)
Definition truthyString (s : string) : bool := negb (String.eqb s "").

Definition truthy (v : JSValue) : bool :=
  match v with
  | JNull => false
  | JBool b => b
  | JNumber q => negb (Qeq_bool q 0)
  | JString s => truthyString s
  | JArray _ | JObject _ => true
  end.

(** The right-hand panel of the RESULT view, lines 233-254. *)
Inductive Panel :=
| Spinner (partialText : string)
| AnalysisFailed (message : string)
| Prediction (prediction : AnalysisRecord)
| SomethingWentWrong.

(** What [renderContent] returns, as the values it hands to the elements
    and child components: the profiles given to [PlantProfiler]; for the
    ANALYSIS view the plant name of the heading, the [isLoading] given to
    [ImageUploader], the [data] given to [EnvironmentalForm], the [src] of
    the preview if there is one, and whether the start button is disabled
    and what it reads; nothing at all ([activePlant && ...] on [null]); for
    the RESULT view the [src] of the image ([None] for [null] or
    [undefined]) and the panel. *)
Inductive Rendered :=
| ProfilerScreen (profiles : list PlantProfile)
| AnalysisScreen (plantName : string) (uploaderIsLoading : bool)
    (formData : EnvironmentalData) (preview : option string)
    (startDisabled : bool) (startLabel : string)
| NothingRendered
| ResultScreen (imageSrc : option JSValue) (panel : Panel).

(** [finalPrediction?.imageUrl || imageUrl!], line 227. *)
Definition resultImageSrc (a : AppState) : option JSValue :=
  let fromPrediction :=
    match finalPrediction a with
    | Some prediction => get_prop "imageUrl" prediction
    | None => None
    end in
  match fromPrediction with
  | Some v => if truthy v then Some v else option_map JString (imageUrl a)
  | None => option_map JString (imageUrl a)
  end.

(** The chain of conditionals of lines 233-254. *)
Definition resultPanel (a : AppState) : Panel :=
  if isLoading a then Spinner (streamingText a)
  else match error a with
       | Some message =>
           if truthyString message then AnalysisFailed message
           else match finalPrediction a with
                | Some prediction => Prediction prediction
                | None => SomethingWentWrong
                end
       | None =>
           match finalPrediction a with
           | Some prediction => Prediction prediction
           | None => SomethingWentWrong
           end
       end.

(** Lines 178-260. *)
Definition renderContent (c : Config) : Rendered :=
  let a := app c in
  match currentView a with
  | PROFILER => ProfilerScreen (plantProfiles (world c))
  | ANALYSIS =>
      match activePlant a with
      | Some plant =>
          AnalysisScreen (PlantProfile.name plant) (isLoading a) (environmentalData a)
            (match imageUrl a with
             | Some url => if truthyString url then Some url else None
             | None => None
             end)
            (match imageFile a with Some _ => false | None => true end || isLoading a)
            (if isLoading a then "Analyzing..." else "Start Analysis")
      | None => NothingRendered
      end
  | RESULT => ResultScreen (resultImageSrc a) (resultPanel a)
  end.

(** The events a screen lets through: the callbacks given to
    [PlantProfiler] (lines 181-186), those of the ANALYSIS view (lines 197,
    198, 212, 215; the start button only while it is not disabled), the one
    button of the RESULT view (line 228).  A suspended call is resumed
    whatever is on screen. *)
Definition offered (r : Rendered) (e : Event) : bool :=
  match e, r with
  | Resume _, _ => true
  | StartAnalysis _, ProfilerScreen _ => true
  | QuickAnalysis _, ProfilerScreen _ => true
  | AddPlant _, ProfilerScreen _ => true
  | ImageUpload _, AnalysisScreen _ _ _ _ _ _ => true
  | EnvironmentChange _, AnalysisScreen _ _ _ _ _ _ => true
  | BackToPlants, AnalysisScreen _ _ _ _ _ _ => true
  | Submit, AnalysisScreen _ _ _ _ startDisabled _ => negb startDisabled
  | BackToPlants, ResultScreen _ _ => true
  | _, _ => false
  end.

(** What the component reaches when every event comes through the screen
    shown at the time. *)
Inductive reachableUI (host : Host) : System -> Prop :=
| reachableUI_initial : reachableUI host initialSystem
| reachableUI_react s e :
    reachableUI host s ->
    offered (renderContent (config s)) e = true ->
    reachableUI host (react host e s).

(** What the views rely on: the PROFILER view is shown exactly when no
    plant is active, the image and its URL are set together, and the RESULT
    view is only shown with an image. *)
Definition viewsConsistent (c : Config) : Prop :=
  (currentView (app c) = PROFILER <-> activePlant (app c) = None)
  /\ (imageFile (app c) = None <-> imageUrl (app c) = None)
  /\ (currentView (app c) = RESULT -> imageFile (app c) <> None).

(** While the loading flag is up, the RESULT view is shown and neither an
    error nor a result is set. *)
Definition loadingMeansStreaming (c : Config) : Prop :=
  isLoading (app c) = true ->
  currentView (app c) = RESULT
  /\ error (app c) = None
  /\ finalPrediction (app c) = None.

(** A suspended call holds the part received so far of the stream that
    answered the [n]-th request, which was sent with the values the call
    captured. *)
Definition holdsStreamOf (host : Host) (log : list Request) (a : Attempt) : Prop :=
  exists n,
    let previous := previousAnalysisOf (att_plant a) in
    let stream :=
      analyzePlantImage host n (att_file a) (att_environment a) previous in
    nth_error log n = Some (mkRequest (att_file a) (att_environment a) previous)
    /\ att_fullResponse a ++ concatAll (att_pending a) = concatAll (chunks stream)
    /\ att_ending a = ending stream.

(** The request a call of [submitAnalysis] sends from [c], if any. *)
Definition requestOf (c : Config) : list Request :=
  match imageFile (app c), activePlant (app c) with
  | Some file, Some plant =>
      [mkRequest file (environmentalData (app c)) (previousAnalysisOf plant)]
  | _, _ => []
  end.

(* ================================================================== *)
(** ** Concrete runs *)
(* ================================================================== *)

(** Payloads are written with an apostrophe where the text has a double
    quote; [dq] puts the double quotes back. *)
Fixpoint dq (s : string) : string :=
  match s with
  | EmptyString => EmptyString
  | String ch rest =>
      String (if Ascii.eqb ch "039" then "034"%char else ch) (dq rest)
  end.

Definition host_JSON_parse (text : string) : string + JSValue :=
  match JSON.parse text with
  | Some v => inr v
  | None => inl "Unexpected token in JSON"
  end.

(** Modelled from the spec: [addPlant] comes from [hooks/usePlantStore],
    which is not among the sources.  Spec 4.3: "createProfile(name) -> new
    PlantProfile with a freshly generated unique identifier and empty
    history". *)
Definition host_addPlant (name : string) (profiles : list PlantProfile)
    : Thrown + (PlantProfile * list PlantProfile) :=
  let p := PlantProfile.mk ("plant-" ++ index_key (List.length profiles)) name [] in
  inr (p, profiles ++ [p])%list.

(** A host whose clock shows [clock n] at the n-th [Date] and whose engine
    answers its n-th request with [answer n]. *)
Definition hostWith (clock : nat -> string) (answer : nat -> Stream) : Host :=
  mkHost host_JSON_parse clock clock
    (fun n file => "blob:" ++ fileName file ++ "#" ++ index_key n)
    (fun n _ _ _ => answer n)
    host_addPlant.

(** A clock that has moved on at every reading. *)
Definition tick (n : nat) : string := "2024-05-01T10:00:0" ++ index_key n ++ ".000Z".

(** A clock that shows the same instant at every reading: readings taken
    within one millisecond, or a clock set back between them. *)
Definition sameInstant (n : nat) : string := "2024-05-01T10:00:00.000Z".

Definition leaf : File := mkFile "leaf.jpg" "...".

Definition basil : PlantProfile := PlantProfile.mk "plant-0" "Basil" [].

Definition mint : PlantProfile := PlantProfile.mk "plant-1" "Mint" [].

(** The ANALYSIS view with [plant] active and an image chosen. *)
Definition ready (plant : PlantProfile) (profiles : list PlantProfile) : Config :=
  mkConfig
    (mkApp (Some plant) (Some leaf) (Some "blob:leaf.jpg#0") initialEnvironmentalData
       "" None false None ANALYSIS)
    (mkWorld profiles 0 1 [] []).

(** The scenario of spec section 8, in six chunks. *)
Definition basilChunks : list string :=
  map dq
  [ "{'plantName':'Basil',";
    "'isHealthy':true,'diseaseName':'','description':'Healthy',";
    "'treatmentSuggestions':[],'benefits':['culinary'],";
    "'confidenceScore':0.92,'preventativeCareTips':[],";
    "'progressAssessment':'N/A','comparativeAnalysis':'',";
    "'pestIdentification':[],'nutrientDeficiencies':[]}" ].

Definition basilParsed : JSValue :=
  JObject
    [ ("plantName", JString "Basil"); ("isHealthy", JBool true);
      ("diseaseName", JString ""); ("description", JString "Healthy");
      ("treatmentSuggestions", JArray []); ("benefits", JArray [JString "culinary"]);
      ("confidenceScore", JNumber (23 # 25)); ("preventativeCareTips", JArray []);
      ("progressAssessment", JString "N/A"); ("comparativeAnalysis", JString "");
      ("pestIdentification", JArray []); ("nutrientDeficiencies", JArray []) ].

Definition basilRecord : AnalysisRecord :=
  [ ("plantName", JString "Basil"); ("isHealthy", JBool true);
    ("diseaseName", JString ""); ("description", JString "Healthy");
    ("treatmentSuggestions", JArray []); ("benefits", JArray [JString "culinary"]);
    ("confidenceScore", JNumber (23 # 25)); ("preventativeCareTips", JArray []);
    ("progressAssessment", JString "N/A"); ("comparativeAnalysis", JString "");
    ("pestIdentification", JArray []); ("nutrientDeficiencies", JArray []);
    ("id", JString "2024-05-01T10:00:00.000Z");
    ("date", JString "2024-05-01T10:00:01.000Z");
    ("imageUrl", JString "blob:leaf.jpg#1");
    ("environmentalData",
     JObject [ ("sunlight", JString ""); ("watering", JString "");
               ("notes", JString ""); ("organicPreference", JBool false);
               ("location", JNull) ]) ].

(** A payload with every field, a confidence of 1.5 and a tag that is none
    of the four. *)
Definition overconfidentChunks : list string :=
  map dq
  [ "{'plantName':'Basil','isHealthy':true,'diseaseName':'',";
    "'description':'','treatmentSuggestions':[],'benefits':[],";
    "'confidenceScore':1.5,'preventativeCareTips':[],";
    "'progressAssessment':'Better','comparativeAnalysis':'',";
    "'pestIdentification':[],'nutrientDeficiencies':[]}" ].

Definition overconfidentParsed : JSValue :=
  JObject
    [ ("plantName", JString "Basil"); ("isHealthy", JBool true);
      ("diseaseName", JString ""); ("description", JString "");
      ("treatmentSuggestions", JArray []); ("benefits", JArray []);
      ("confidenceScore", JNumber (3 # 2)); ("preventativeCareTips", JArray []);
      ("progressAssessment", JString "Better"); ("comparativeAnalysis", JString "");
      ("pestIdentification", JArray []); ("nutrientDeficiencies", JArray []) ].

(** Basil once it has one analysis on record. *)
Definition basilAgain : PlantProfile := PlantProfile.mk "plant-0" "Basil" [basilRecord].

(** A payload cut short. *)
Definition truncatedChunks : list string := map dq [ "{'plantName':"; "'Bas" ].

(** What the literal of lines 137-143 adds to an empty object when the
    clock shows [sameInstant]. *)
Definition stampedOnly (url : string) : AnalysisRecord :=
  [ ("id", JString "2024-05-01T10:00:00.000Z");
    ("date", JString "2024-05-01T10:00:00.000Z");
    ("imageUrl", JString url);
    ("environmentalData", js_of_EnvironmentalData initialEnvironmentalData) ].

(** Two analyses of one plant, one after the other: the user creates
    Basil, analyses it, goes back to the plant list, picks Basil again (now
    with one record) and analyses it a second time. *)
Definition twoAnalysesOfBasil : list Event :=
  [ AddPlant "Basil";
    StartAnalysis basil; ImageUpload leaf; Submit;
    Resume 0; Resume 0; Resume 0;
    BackToPlants;
    StartAnalysis (PlantProfile.mk "plant-0" "Basil" [stampedOnly "blob:leaf.jpg#1"]);
    ImageUpload leaf; Submit;
    Resume 0; Resume 0; Resume 0 ].

(** Two attempts in flight at once: the first is started for Basil, the
    user goes back to the plant list while it streams and starts a second
    one for Mint; then both streams deliver and end. *)
Definition overlappingAttempts : list Event :=
  [ AddPlant "Basil"; AddPlant "Mint";
    StartAnalysis basil; ImageUpload leaf; Submit;
    BackToPlants;
    StartAnalysis mint; ImageUpload leaf; Submit;
    Resume 0; Resume 1; Resume 0; Resume 0; Resume 0; Resume 0 ].

Definition play (host : Host) (events : list Event) : System :=
  fold_left (fun s e => react host e s) events initialSystem.

(** Basil picked from the plant list, an image uploaded, the start button
    pressed: one attempt under way. *)
Definition streamingBasil (host : Host) : System :=
  initialSystem
    |> react host (StartAnalysis basil)
    |> react host (ImageUpload leaf)
    |> react host Submit.

(** A host whose store refuses new plants. *)
Definition refusingHost : Host :=
  mkHost host_JSON_parse tick tick
    (fun n file => "blob:" ++ fileName file ++ "#" ++ index_key n)
    (fun _ _ _ _ => mkStream basilChunks None)
    (fun _ _ => inl (Error "Plant name is taken")).

(** The events played one after the other from [s], as long as each is one
    the screen shown at the time lets through. *)
Fixpoint playFrom (host : Host) (s : System) (events : list Event) : option System :=
  match events with
  | [] => Some s
  | e :: rest =>
      if offered (renderContent (config s)) e
      then playFrom host (react host e s) rest
      else None
  end.

(** An engine that answers its first request in two chunks A1, A2 and every
    later one in two chunks B1, B2. *)
Definition twoStreams : Host :=
  hostWith tick
    (fun n => match n with
              | O => mkStream ["A1"; "A2"] None
              | S _ => mkStream ["B1"; "B2"] None
              end).

(** Basil is analysed; while the answer streams the user goes back to the
    plant list and picks Basil again, as the list shows it then, and
    uploads an image; the first attempt ends and commits its record; the
    user presses the start button. *)
Definition secondAnalysisOfStaleBasil : list Event :=
  [ AddPlant "Basil";
    StartAnalysis basil; ImageUpload leaf; Submit;
    BackToPlants;
    StartAnalysis basil; ImageUpload leaf;
    Resume 0; Resume 0; Resume 0;
    Submit ].

(** An attempt for Mint is started while the one for Basil has received
    nothing yet; then Basil's first chunk arrives, then Mint's. *)
Definition mintStartedWhileBasilStreams : list Event :=
  [ AddPlant "Basil"; AddPlant "Mint";
    StartAnalysis basil; ImageUpload leaf; Submit;
    BackToPlants;
    StartAnalysis mint; ImageUpload leaf; Submit;
    Resume 0; Resume 1 ].

(** One attempt; the user goes back to the plant list after its first
    chunk; then its second chunk arrives. *)
Definition backAfterFirstChunk : list Event :=
  [ AddPlant "Basil";
    StartAnalysis basil; ImageUpload leaf; Submit;
    Resume 0;
    BackToPlants;
    Resume 0 ].

(* ================================================================== *)
(** ** Properties *)
(* ================================================================== *)

(** *** Strings and objects *)

Lemma append_nil_r (s : string) : s ++ "" = s.
Proof. induction s as [|ch s IH]; simpl; [reflexivity | now rewrite IH]. Qed.

Lemma append_assoc (s t u : string) : (s ++ t) ++ u = s ++ (t ++ u).
Proof. induction s as [|ch s IH]; simpl; [reflexivity | now rewrite IH]. Qed.


Lemma get_set_same (k : string) (v : JSValue) (o : JSObject) :
  get_prop k (set_prop k v o) = Some v.
Proof.
  induction o as [|[k' v'] o IH]; simpl.
  - now rewrite String.eqb_refl.
  - destruct (String.eqb k' k) eqn:E; simpl; rewrite E; [reflexivity | exact IH].
Qed.

Lemma get_set_other (k k' : string) (v : JSValue) (o : JSObject) :
  k <> k' -> get_prop k (set_prop k' v o) = get_prop k o.
Proof.
  intros Hne. induction o as [|[k0 v0] o IH]; simpl.
  - destruct (String.eqb k' k) eqn:E; [|reflexivity].
    apply String.eqb_eq in E. congruence.
  - destruct (String.eqb k0 k') eqn:E; simpl.
    + apply String.eqb_eq in E. subst k0.
      destruct (String.eqb k' k) eqn:E'; [|reflexivity].
      apply String.eqb_eq in E'. congruence.
    + now rewrite IH.
Qed.

(** *** The loop *)

Lemma consume_spec (fragments : list string) (acc : string) (c : Config) :
  consume fragments (acc, c)
  = (acc ++ concatAll fragments,
     updStreamingText (fun prev => prev ++ concatAll fragments) c).
Proof.
  revert acc c. induction fragments as [|chunk rest IH]; intros acc c.
  - destruct c as [[] w]. unfold consume, updStreamingText, onApp. simpl.
    now rewrite !append_nil_r.
  - unfold consume in *. simpl. rewrite IH.
    destruct c as [[] w]. unfold updStreamingText, onApp. simpl.
    now rewrite !append_assoc.
Qed.

(** An attempt that passes the check of line 112 is the settling of the
    attempt that has received every chunk. *)
Lemma submitAnalysis_started (host : Host) (c : Config) (file : File) (plant : PlantProfile) :
  imageFile (app c) = Some file ->
  activePlant (app c) = Some plant ->
  let env := environmentalData (app c) in
  let stream := streamOf host c file plant in
  submitAnalysis host c
  = settle host
      (mkAttempt file plant env (concatAll (chunks stream)) [] (ending stream))
      (enterStreaming c
         |> logRequest (mkRequest file env (previousAnalysisOf plant))
         |> updStreamingText (fun prev => prev ++ concatAll (chunks stream))).
Proof.
  intros Hf Hp env stream. unfold submitAnalysis, tryBlock. rewrite Hf, Hp.
  change (analyzePlantImage host _ file _ _) with stream.
  rewrite consume_spec. simpl String.append.
  unfold settle. simpl att_ending. simpl att_fullResponse.
  destruct (ending stream) as [err|]; [reflexivity|].
  simpl. destruct (commit host file plant _ _ _) as [thrown c']. reflexivity.
Qed.

(** Once every chunk is in, the next resumption settles the attempt. *)
Lemma resumed_chunks (host : Host) (l1 l2 : list string) (c : Config)
    (file : File) (plant : PlantProfile) (env : EnvironmentalData)
    (acc : string) (ending : option Thrown) :
  resumed host (List.length l1) (c, Some (mkAttempt file plant env acc (l1 ++ l2) ending))
  = (updStreamingText (fun prev => prev ++ concatAll l1) c,
     Some (mkAttempt file plant env (acc ++ concatAll l1) l2 ending)).
Proof.
  revert c acc. induction l1 as [|chunk l1 IH]; intros c acc.
  - destruct c as [[] w]. unfold updStreamingText, onApp. simpl.
    now rewrite !append_nil_r.
  - simpl. unfold resume. simpl. rewrite IH.
    destruct c as [[] w]. unfold updStreamingText, onApp. simpl.
    now rewrite !append_assoc.
Qed.

(** Run without interruption, the suspensions add up to [submitAnalysis]. *)
Lemma run_to_completion (host : Host) (c : Config) (file : File) (plant : PlantProfile) :
  imageFile (app c) = Some file ->
  activePlant (app c) = Some plant ->
  resumed host (S (List.length (chunks (streamOf host c file plant)))) (begin host c)
  = (submitAnalysis host c, None).
Proof.
  intros Hf Hp. rewrite (submitAnalysis_started host c file plant Hf Hp).
  unfold begin. rewrite Hf, Hp.
  change (analyzePlantImage host _ file _ _) with (streamOf host c file plant).
  set (stream := streamOf host c file plant).
  replace (S (List.length (chunks stream))) with (List.length (chunks stream) + 1) by lia.
  rewrite <- (app_nil_r (chunks stream)) at 2.
  assert (Hsplit : forall n m st, resumed host (n + m) st = resumed host m (resumed host n st)).
  { induction n as [|n IHn]; intros m [c0 [a0|]]; simpl; auto. now destruct m. }
  rewrite Hsplit, resumed_chunks. reflexivity.
Qed.

(** C7, as the code has it.  When an attempt enters the streaming phase,
    the partial text, the previous result and the previous error are
    cleared before any chunk is consumed; every chunk received, whenever it
    arrives, is appended to what the partial text holds then and to the
    local [fullResponse] of its call; and as long as the resumptions of the
    attempt follow one another with nothing in between, the partial text
    after [k] chunks reads concat(F1..Fk). *)
Theorem C7_buffer_after_k_fragments (host : Host) (c : Config) (file : File)
    (plant : PlantProfile) (k : nat) :
  imageFile (app c) = Some file ->
  activePlant (app c) = Some plant ->
  k <= List.length (chunks (streamOf host c file plant)) ->
  let fragments := chunks (streamOf host c file plant) in
  let entered := fst (begin host c) in
  (isLoading (app entered) = true
   /\ streamingText (app entered) = ""
   /\ finalPrediction (app entered) = None
   /\ error (app entered) = None)
  /\ (exists ck ak,
        resumed host k (begin host c) = (ck, Some ak)
        /\ streamingText (app ck) = concatAll (firstn k fragments)
        /\ att_fullResponse ak = concatAll (firstn k fragments)
        /\ att_pending ak = skipn k fragments
        /\ finalPrediction (app ck) = None
        /\ error (app ck) = None)
  /\ (forall a c0 chunk rest,
        att_pending a = chunk :: rest ->
        exists a',
          resume host a c0
          = (updStreamingText (fun prev => prev ++ chunk) c0, Some a')
          /\ streamingText (app (fst (resume host a c0)))
             = streamingText (app c0) ++ chunk
          /\ att_fullResponse a' = att_fullResponse a ++ chunk
          /\ att_pending a' = rest).
Proof.
  intros Hf Hp Hk fragments entered. split; [|split].
  - unfold entered, begin. rewrite Hf, Hp. simpl. auto.
  - unfold begin. rewrite Hf, Hp.
    change (analyzePlantImage host _ file _ _) with (streamOf host c file plant).
    fold fragments.
    pose proof (resumed_chunks host (firstn k fragments) (skipn k fragments)
                  (logRequest
                     (mkRequest file (environmentalData (app c)) (previousAnalysisOf plant))
                     (enterStreaming c))
                  file plant (environmentalData (app c)) ""
                  (ending (streamOf host c file plant))) as Hrun.
    rewrite firstn_skipn, firstn_length_le in Hrun by exact Hk.
    eexists _, _. split; [exact Hrun|]. simpl. auto.
  - intros a c0 chunk rest Hpending. unfold resume. rewrite Hpending.
    eexists. split; [reflexivity|]. cbn. auto.
Qed.

(** *** The record built on success *)

Lemma PredictionData_keys_not_stamped (k : string) :
  In k PredictionData_keys -> ~ In k AnalysisRecord_keys.
Proof.
  unfold PredictionData_keys, AnalysisRecord_keys. simpl.
  intros Hin Hst.
  repeat (destruct Hin as [<-|Hin]; [intuition discriminate|]).
  exact Hin.
Qed.

Lemma newAnalysisRecord_keeps_parsed (host : Host) (parsedData : JSValue) (file : File)
    (env : EnvironmentalData) (c : Config) (k : string) :
  ~ In k AnalysisRecord_keys ->
  get_prop k (fst (newAnalysisRecord host parsedData file env c))
  = get_prop k (own_props parsedData).
Proof.
  intros Hk. unfold newAnalysisRecord. simpl fst.
  rewrite !get_set_other; [reflexivity|..];
    intros ->; apply Hk; simpl; auto.
Qed.

Lemma newAnalysisRecord_stamps (host : Host) (parsedData : JSValue) (file : File)
    (env : EnvironmentalData) (c : Config) :
  let record := fst (newAnalysisRecord host parsedData file env c) in
  get_prop "id" record = Some (JString (Date_toISOString host (dateCalls (world c))))
  /\ get_prop "date" record = Some (JString (Date_toISOString host (S (dateCalls (world c)))))
  /\ get_prop "imageUrl" record
     = Some (JString (URL_createObjectURL host (urlCalls (world c)) file))
  /\ get_prop "environmentalData" record = Some (js_of_EnvironmentalData env).
Proof.
  unfold newAnalysisRecord. simpl fst.
  repeat split;
    repeat (rewrite get_set_other by discriminate);
    now rewrite get_set_same.
Qed.

(** *** The outcome of an attempt *)

(** The store answers a failed append by this one exception only. *)
Lemma addAnalysisToPlant_throws (plantId : string) (record : AnalysisRecord)
    (profiles : list PlantProfile) (err : Thrown) :
  addAnalysisToPlant plantId record profiles = inl err -> err = NotFoundError.
Proof.
  induction profiles as [|p rest IH]; simpl.
  - congruence.
  - destruct (String.eqb (PlantProfile.id p) plantId); [discriminate|].
    destruct (addAnalysisToPlant plantId record rest); [|discriminate].
    intros [= <-]. now apply IH.
Qed.

(** Splits a settled attempt along the paths of the [try] block: a throw
    of the stream (three kinds), a parse failure, a failed or a successful
    append. *)
Ltac settle_paths host :=
  unfold settle, commit, newAnalysisRecord;
  cbn [att_ending att_file att_plant att_environment att_fullResponse];
  match goal with
  | |- context [ending ?s] =>
      let Hend := fresh "Hend" in
      destruct (ending s) as [[m|m|]|] eqn:Hend;
      [ | | |
        let Hparse := fresh "Hparse" in
        destruct (JSON_parse host _) as [m|parsedData] eqn:Hparse;
        [ | let Hadd := fresh "Hadd" in
            destruct (addAnalysisToPlant _ _ _) as [err|profiles] eqn:Hadd;
            [ pose proof (addAnalysisToPlant_throws _ _ _ _ Hadd); subst err | ] ] ]
  end.

Lemma index_key_is_no_field (i : nat) (k : string) :
  In k PredictionData_keys -> index_key i <> k.
Proof.
  unfold index_key, PredictionData_keys. intros Hin.
  destruct (Nat.to_uint i); simpl;
    repeat (destruct Hin as [<-|Hin]; [discriminate|]); destruct Hin.
Qed.

Lemma indexed_has_no_field {A} (f : A -> JSValue) (l : list A) (k : string) :
  In k PredictionData_keys -> forall i, get_prop k (indexed f i l) = None.
Proof.
  intros Hin. induction l as [|x l IH]; intros i; simpl; [reflexivity|].
  destruct (String.eqb (index_key i) k) eqn:E; [|apply IH].
  apply String.eqb_eq in E. now destruct (index_key_is_no_field i k Hin).
Qed.

(** For the keys of [PredictionData] the spread of line 138 copies the
    fields of an object and finds nothing to copy in any other value. *)
Lemma spread_copies_fields (data : JSValue) (k : string) :
  In k PredictionData_keys -> get_prop k (own_props data) = fieldOf data k.
Proof.
  intros Hin. destruct data; simpl; try reflexivity.
  - now apply indexed_has_no_field.
  - now apply indexed_has_no_field.
Qed.

(** C1. When an attempt succeeds, the stream ended normally, the
    concatenation of its chunks in arrival order parsed, and every
    [PredictionData] field of the final record is the field of that name of
    the parsed data: for a parsed object with properties [props] the record
    has under each such key what [props] has, and for parsed data that is
    no object the record has none of these fields.  In terms of the spread
    of line 138, every key but the four stamped ones is copied as it is. *)
Theorem C1_record_fields_are_parsed_concatenation (host : Host) (c : Config)
    (file : File) (plant : PlantProfile) (record : AnalysisRecord) :
  imageFile (app c) = Some file ->
  activePlant (app c) = Some plant ->
  phase (app (submitAnalysis host c)) = SucceededWith record ->
  let stream := streamOf host c file plant in
  ending stream = None
  /\ exists parsedData,
       JSON_parse host (concatAll (chunks stream)) = inr parsedData
       /\ (forall k, In k PredictionData_keys ->
             get_prop k record = fieldOf parsedData k)
       /\ (forall props, parsedData = JObject props ->
           forall k, In k PredictionData_keys ->
             get_prop k record = get_prop k props)
       /\ (forall k, In k PredictionData_keys ->
             get_prop k record = get_prop k (own_props parsedData))
       /\ (forall k, ~ In k AnalysisRecord_keys ->
             get_prop k record = get_prop k (own_props parsedData)).
Proof.
  intros Hf Hp Hphase stream.
  rewrite (submitAnalysis_started host c file plant Hf Hp) in Hphase.
  fold stream in Hphase. revert Hphase.
  settle_paths host; cbn; try discriminate.
  intros [= <-]. split; [reflexivity|].
  exists parsedData. split; [reflexivity|].
  assert (Hkeep : forall k, ~ In k AnalysisRecord_keys ->
            get_prop k (fst (newAnalysisRecord host parsedData file
                               (environmentalData (app c))
                               (enterStreaming c
                                  |> logRequest (mkRequest file (environmentalData (app c))
                                                   (previousAnalysisOf plant))
                                  |> updStreamingText
                                       (fun prev => prev ++ concatAll (chunks stream)))))
            = get_prop k (own_props parsedData))
    by (intros k Hk; now apply newAnalysisRecord_keeps_parsed).
  assert (Hfield : forall k, In k PredictionData_keys ->
            get_prop k (fst (newAnalysisRecord host parsedData file
                               (environmentalData (app c))
                               (enterStreaming c
                                  |> logRequest (mkRequest file (environmentalData (app c))
                                                   (previousAnalysisOf plant))
                                  |> updStreamingText
                                       (fun prev => prev ++ concatAll (chunks stream)))))
            = fieldOf parsedData k).
  { intros k Hk. rewrite <- (spread_copies_fields parsedData k Hk).
    apply Hkeep, PredictionData_keys_not_stamped, Hk. }
  split; [exact Hfield|]. split; [|split; [|exact Hkeep]].
  - intros props -> k Hk. exact (Hfield k Hk).
  - intros k Hk. apply Hkeep, PredictionData_keys_not_stamped, Hk.
Qed.

(** The path of an attempt that a throw of the stream or of [JSON.parse]
    takes out of the [try] block: the [catch] clause on what has been
    received, then [finally]. *)
Lemma submitAnalysis_failure_path (host : Host) (c : Config)
    (file : File) (plant : PlantProfile) (err : Thrown) :
  imageFile (app c) = Some file ->
  activePlant (app c) = Some plant ->
  let stream := streamOf host c file plant in
  (ending stream = Some err
   \/ (ending stream = None
       /\ exists m, JSON_parse host (concatAll (chunks stream)) = inl m
                    /\ err = SyntaxError m)) ->
  submitAnalysis host c
  = (enterStreaming c
       |> logRequest (mkRequest file (environmentalData (app c)) (previousAnalysisOf plant))
       |> updStreamingText (fun prev => prev ++ concatAll (chunks stream))
       |> catchClause err (concatAll (chunks stream))
       |> setIsLoading false).
Proof.
  intros Hf Hp stream Hfail.
  rewrite (submitAnalysis_started host c file plant Hf Hp). fold stream.
  unfold settle, commit. cbn [att_ending att_fullResponse].
  destruct Hfail as [Hthrown | (Hnormal & m0 & Hbad & ->)].
  - now rewrite Hthrown.
  - now rewrite Hnormal, Hbad.
Qed.


(** *** The request sent to the engine *)

Lemma previousAnalysisOf_empty (plant : PlantProfile) :
  PlantProfile.analysisHistory plant = [] -> previousAnalysisOf plant = None.
Proof. unfold previousAnalysisOf. now intros ->. Qed.

Lemma previousAnalysisOf_last (plant : PlantProfile) (earlier : list AnalysisRecord)
    (r : AnalysisRecord) :
  PlantProfile.analysisHistory plant = (earlier ++ [r])%list ->
  previousAnalysisOf plant = Some r.
Proof.
  unfold previousAnalysisOf. intros ->.
  rewrite length_app. simpl List.length.
  replace (List.length earlier + 1 - 1) with (List.length earlier) by lia.
  destruct (Nat.ltb_spec 0 (List.length earlier + 1)) as [_|Hle]; [|lia].
  rewrite nth_error_app2 by lia.
  now rewrite Nat.sub_diag.
Qed.

Lemma settle_requests (host : Host) (a : Attempt) (c : Config) :
  requests (world (settle host a c)) = requests (world c).
Proof.
  destruct a as [file plant env text pending ending0].
  unfold settle, commit, newAnalysisRecord.
  cbn [att_ending att_file att_plant att_environment att_fullResponse].
  destruct ending0 as [[m|m|]|]; cbn; try reflexivity.
  destruct (JSON_parse host text) as [m|parsedData]; cbn; [reflexivity|].
  destruct (addAnalysisToPlant _ _ _) as [err|profiles]; cbn; [|reflexivity].
  destruct err; reflexivity.
Qed.

Lemma previousAnalysisOf_is_last (plant : PlantProfile) :
  previousAnalysisOf plant = last (map Some (PlantProfile.analysisHistory plant)) None.
Proof.
  destruct (PlantProfile.analysisHistory plant) as [|r0 rest] eqn:Hh.
  - now apply previousAnalysisOf_empty.
  - destruct (exists_last (l := r0 :: rest)) as (earlier & r & Hsplit); [discriminate|].
    rewrite Hsplit in *.
    rewrite (previousAnalysisOf_last plant earlier r Hh). symmetry.
    rewrite map_app. simpl. apply last_last.
Qed.

(** C4, as the code has it.  Every attempt sends the engine exactly one
    request, whose [previousAnalysis] is read from the profile value held
    in the [activePlant] cell: the last element of its [analysisHistory]
    when that is not empty, absent when it is empty.  This is the most
    recent record of the store whenever the history the store holds for
    that plant is the one in the cell. *)
Theorem C4_previous_record_is_last_of_history (host : Host) (c : Config)
    (file : File) (plant : PlantProfile) :
  imageFile (app c) = Some file ->
  activePlant (app c) = Some plant ->
  exists previous,
    requests (world (submitAnalysis host c))
    = (requests (world c) ++ [mkRequest file (environmentalData (app c)) previous])%list
    /\ (PlantProfile.analysisHistory plant = [] -> previous = None)
    /\ (forall earlier r,
          PlantProfile.analysisHistory plant = (earlier ++ [r])%list -> previous = Some r)
    /\ (historyOf (PlantProfile.id plant) (plantProfiles (world c))
        = Some (PlantProfile.analysisHistory plant) ->
        previous = mostRecent (PlantProfile.id plant) (plantProfiles (world c))).
Proof.
  intros Hf Hp. exists (previousAnalysisOf plant). split; [|split; [|split]].
  - rewrite (submitAnalysis_started host c file plant Hf Hp).
    rewrite settle_requests. reflexivity.
  - apply previousAnalysisOf_empty.
  - intros earlier r. apply previousAnalysisOf_last.
  - intros Hstore. unfold mostRecent. rewrite Hstore.
    apply previousAnalysisOf_is_last.
Qed.

(** C8. Without an image or without an active plant the attempt fails at
    once with the precondition message, and that message is the only thing
    that changes: the store, the partial text, the previous result and the
    loading flag are as before, no attempt is started and no request is
    sent to the engine. *)
Theorem C8_precondition_failure_changes_only_error (host : Host) (c : Config) :
  imageFile (app c) = None \/ activePlant (app c) = None ->
  let c' := submitAnalysis host c in
  c' = setError (Some preconditionMessage) c
  /\ begin host c = (c', None)
  /\ error (app c') = Some preconditionMessage
  /\ world c' = world c
  /\ plantProfiles (world c') = plantProfiles (world c)
  /\ requests (world c') = requests (world c)
  /\ streamingText (app c') = streamingText (app c)
  /\ finalPrediction (app c') = finalPrediction (app c)
  /\ isLoading (app c') = isLoading (app c)
  /\ activePlant (app c') = activePlant (app c)
  /\ imageFile (app c') = imageFile (app c)
  /\ imageUrl (app c') = imageUrl (app c)
  /\ environmentalData (app c') = environmentalData (app c)
  /\ currentView (app c') = currentView (app c).
Proof.
  intros Hmissing c'.
  assert (Hrun : submitAnalysis host c = setError (Some preconditionMessage) c
                 /\ begin host c = (setError (Some preconditionMessage) c, None)).
  { unfold submitAnalysis, begin.
    destruct Hmissing as [-> | ->]; [|destruct (imageFile (app c))]; auto. }
  destruct Hrun as [Hrun Hbegin]. unfold c'. rewrite Hrun, Hbegin.
  cbn. repeat split; reflexivity.
Qed.

(** *** The store *)

Lemma addAnalysisToPlant_history (plantId : string) (record : AnalysisRecord)
    (profiles : list PlantProfile) (history : list AnalysisRecord) :
  historyOf plantId profiles = Some history ->
  exists profiles',
    addAnalysisToPlant plantId record profiles = inr profiles'
    /\ historyOf plantId profiles' = Some (history ++ [record])%list
    /\ (forall other, other <> plantId ->
          historyOf other profiles' = historyOf other profiles).
Proof.
  induction profiles as [|p rest IH]; simpl; [discriminate|].
  destruct (String.eqb (PlantProfile.id p) plantId) eqn:Hid.
  - intros [= <-]. eexists. split; [reflexivity|]. simpl. rewrite Hid.
    split; [reflexivity|].
    intros other Hother. apply String.eqb_eq in Hid.
    destruct (String.eqb (PlantProfile.id p) other) eqn:Hid'; [|reflexivity].
    apply String.eqb_eq in Hid'. congruence.
  - intros Hrest. destruct (IH Hrest) as (rest' & -> & Hnew & Hothers).
    eexists. split; [reflexivity|]. simpl. rewrite Hid.
    split; [exact Hnew|].
    intros other Hother.
    destruct (String.eqb (PlantProfile.id p) other); [reflexivity|].
    now apply Hothers.
Qed.

Lemma addAnalysisToPlant_unknown (plantId : string) (record : AnalysisRecord)
    (profiles : list PlantProfile) :
  historyOf plantId profiles = None ->
  addAnalysisToPlant plantId record profiles = inl NotFoundError.
Proof.
  induction profiles as [|p rest IH]; simpl; [reflexivity|].
  destruct (String.eqb (PlantProfile.id p) plantId); [discriminate|].
  intros Hrest. now rewrite (IH Hrest).
Qed.

Lemma commitAll_history (plantId : string) (records : list AnalysisRecord) :
  forall (profiles : list PlantProfile) (history : list AnalysisRecord),
  historyOf plantId profiles = Some history ->
  exists profiles',
    commitAll plantId records profiles = inr profiles'
    /\ historyOf plantId profiles' = Some (history ++ records)%list
    /\ (forall other, other <> plantId ->
          historyOf other profiles' = historyOf other profiles).
Proof.
  induction records as [|record rest IH]; intros profiles history Hh; simpl.
  - exists profiles. now rewrite app_nil_r.
  - destruct (addAnalysisToPlant_history plantId record profiles history Hh)
      as (profiles1 & -> & Hh1 & Hothers1).
    destruct (IH profiles1 _ Hh1) as (profiles' & Hrun & Hh' & Hothers').
    exists profiles'. split; [exact Hrun|]. split.
    + now rewrite Hh', <- app_assoc.
    + intros other Hother. now rewrite Hothers', Hothers1.
Qed.

Lemma last_option_snoc {A} (l : list A) (x : A) :
  last (map Some (l ++ [x])) None = Some x.
Proof. rewrite map_app. simpl. apply last_last. Qed.

(** C9. On a fresh profile, committing N records one after the other
    succeeds and leaves a history of length N holding the records in commit
    order, its element N-1 and [mostRecent] being the record committed
    last; after the first k commits the history is the first k records,
    so what was committed is never edited or reordered; and one append
    extends the history of its profile by that record at the end and
    leaves every other history as it was. *)
Theorem C9_history_is_commit_order (plantId : string) (profiles : list PlantProfile)
    (records : list AnalysisRecord) :
  historyOf plantId profiles = Some [] ->
  (exists profiles',
     commitAll plantId records profiles = inr profiles'
     /\ historyOf plantId profiles' = Some records
     /\ (forall history, historyOf plantId profiles' = Some history ->
           List.length history = List.length records)
     /\ (forall earlier r, records = (earlier ++ [r])%list ->
           nth_error records (List.length records - 1) = Some r
           /\ mostRecent plantId profiles' = Some r))
  /\ (forall k, exists profiles_k,
        commitAll plantId (firstn k records) profiles = inr profiles_k
        /\ historyOf plantId profiles_k = Some (firstn k records))
  /\ (forall store history record,
        historyOf plantId store = Some history ->
        exists store',
          addAnalysisToPlant plantId record store = inr store'
          /\ historyOf plantId store' = Some (history ++ [record])%list
          /\ (forall other, other <> plantId ->
                historyOf other store' = historyOf other store)).
Proof.
  intros Hfresh. split; [|split].
  - destruct (commitAll_history plantId records profiles [] Hfresh)
      as (profiles' & Hrun & Hh & _).
    simpl in Hh. exists profiles'. split; [exact Hrun|]. split; [exact Hh|]. split.
    + intros history Hh'. congruence.
    + intros earlier r ->. split.
      * rewrite length_app. simpl List.length.
        rewrite nth_error_app2 by lia.
        replace (List.length earlier + 1 - 1 - List.length earlier) with 0 by lia.
        reflexivity.
      * unfold mostRecent. rewrite Hh. apply last_option_snoc.
  - intros k.
    destruct (commitAll_history plantId (firstn k records) profiles [] Hfresh)
      as (profiles_k & Hrun & Hh & _).
    exists profiles_k. now split.
  - intros store history record. apply addAnalysisToPlant_history.
Qed.

(** A successful attempt: the record of lines 137-143 becomes the result
    and goes to the end of the active plant's history. *)
Lemma submitAnalysis_commits (host : Host) (c : Config) (file : File)
    (plant : PlantProfile) (parsedData : JSValue) (history : list AnalysisRecord) :
  imageFile (app c) = Some file ->
  activePlant (app c) = Some plant ->
  let stream := streamOf host c file plant in
  ending stream = None ->
  JSON_parse host (concatAll (chunks stream)) = inr parsedData ->
  historyOf (PlantProfile.id plant) (plantProfiles (world c)) = Some history ->
  let record := fst (newAnalysisRecord host parsedData file (environmentalData (app c)) c) in
  let c' := submitAnalysis host c in
  phase (app c') = SucceededWith record
  /\ streamingText (app c') = concatAll (chunks stream)
  /\ historyOf (PlantProfile.id plant) (plantProfiles (world c'))
     = Some (history ++ [record])%list
  /\ (forall other, other <> PlantProfile.id plant ->
        historyOf other (plantProfiles (world c'))
        = historyOf other (plantProfiles (world c))).
Proof.
  intros Hf Hp stream Hend Hparse Hh record c'. unfold c'.
  rewrite (submitAnalysis_started host c file plant Hf Hp). fold stream.
  unfold settle, commit, newAnalysisRecord.
  cbn [att_ending att_file att_plant att_environment att_fullResponse].
  rewrite Hend, Hparse. cbn.
  destruct (addAnalysisToPlant_history (PlantProfile.id plant) record _ _ Hh)
    as (profiles' & Hadd & Hnew & Hothers).
  unfold record, newAnalysisRecord in Hadd. cbn in Hadd. rewrite Hadd. cbn.
  repeat split; assumption.
Qed.

(** Whatever its outcome, a settled attempt changes a history of the store
    by at most one record added at its end. *)
Lemma settle_only_appends (host : Host) (a : Attempt) (c : Config)
    (plantId : string) (history : list AnalysisRecord) :
  historyOf plantId (plantProfiles (world c)) = Some history ->
  exists added,
    historyOf plantId (plantProfiles (world (settle host a c)))
    = Some (history ++ added)%list
    /\ List.length added <= 1.
Proof.
  intros Hh. destruct a as [file plant env text pending ending0].
  assert (Hsame : forall c', plantProfiles (world c') = plantProfiles (world c) ->
            exists added,
              historyOf plantId (plantProfiles (world c')) = Some (history ++ added)%list
              /\ List.length added <= 1).
  { intros c' ->. exists []. rewrite app_nil_r. split; [exact Hh | simpl; lia]. }
  unfold settle, commit, newAnalysisRecord.
  cbn [att_ending att_file att_plant att_environment att_fullResponse].
  destruct ending0 as [[m|m|]|]; try (apply Hsame; reflexivity).
  destruct (JSON_parse host text) as [m|parsedData]; [apply Hsame; reflexivity|].
  cbn.
  match goal with
  | |- context [addAnalysisToPlant ?pid ?r ?ps] =>
      destruct (addAnalysisToPlant pid r ps) as [err|profiles] eqn:Hadd;
      [ apply Hsame; destruct err; reflexivity | ];
      destruct (String.eqb pid plantId) eqn:Hid;
      [ apply String.eqb_eq in Hid; subst plantId;
        destruct (addAnalysisToPlant_history pid r ps history Hh)
          as (profiles' & Hadd' & Hnew & _);
        exists [r]
      | apply String.eqb_neq in Hid;
        destruct (historyOf pid ps) as [h|] eqn:Hknown;
        [ destruct (addAnalysisToPlant_history pid r ps h Hknown)
            as (profiles' & Hadd' & _ & Hothers);
          exists []
        | rewrite (addAnalysisToPlant_unknown pid r ps Hknown) in Hadd; discriminate ] ]
  end.
  - cbn in Hadd'. rewrite Hadd in Hadd'. injection Hadd' as <-.
    cbn. split; [exact Hnew | simpl; lia].
  - cbn in Hadd'. rewrite Hadd in Hadd'. injection Hadd' as <-.
    cbn. rewrite app_nil_r. split; [|simpl; lia].
    rewrite Hothers by congruence. exact Hh.
Qed.

(** So does a whole call of [submitAnalysis]: appending is all it does to
    the store. *)
Lemma submitAnalysis_only_appends (host : Host) (c : Config)
    (plantId : string) (history : list AnalysisRecord) :
  historyOf plantId (plantProfiles (world c)) = Some history ->
  exists added,
    historyOf plantId (plantProfiles (world (submitAnalysis host c)))
    = Some (history ++ added)%list
    /\ List.length added <= 1.
Proof.
  intros Hh.
  destruct (imageFile (app c)) as [file|] eqn:Hf;
    [destruct (activePlant (app c)) as [plant|] eqn:Hp|].
  - rewrite (submitAnalysis_started host c file plant Hf Hp).
    apply settle_only_appends. exact Hh.
  - unfold submitAnalysis. rewrite Hf, Hp. cbn.
    exists []. rewrite app_nil_r. split; [exact Hh | simpl; lia].
  - unfold submitAnalysis. rewrite Hf. cbn.
    exists []. rewrite app_nil_r. split; [exact Hh | simpl; lia].
Qed.

(** C2, as the code has it.  Of a stream that ended normally the attempt
    checks the syntax and nothing else: text that does not parse ends the
    attempt failed with the parse message, no result and the store
    untouched; text that parses, whatever its fields, ends it succeeded
    with the record appended to the history of the active plant. *)
Theorem C2_only_syntax_is_checked (host : Host) (c : Config) (file : File)
    (plant : PlantProfile) (history : list AnalysisRecord) :
  imageFile (app c) = Some file ->
  activePlant (app c) = Some plant ->
  ending (streamOf host c file plant) = None ->
  historyOf (PlantProfile.id plant) (plantProfiles (world c)) = Some history ->
  let c' := submitAnalysis host c in
  match JSON_parse host (concatAll (chunks (streamOf host c file plant))) with
  | inl _ =>
      phase (app c') = FailedWith parseErrorMessage
      /\ finalPrediction (app c') = None
      /\ plantProfiles (world c') = plantProfiles (world c)
  | inr parsedData =>
      let record :=
        fst (newAnalysisRecord host parsedData file (environmentalData (app c)) c) in
      phase (app c') = SucceededWith record
      /\ historyOf (PlantProfile.id plant) (plantProfiles (world c'))
         = Some (history ++ [record])%list
  end.
Proof.
  intros Hf Hp Hend Hh c'.
  destruct (JSON_parse host _) as [m|parsedData] eqn:Hparse.
  - unfold c'.
    rewrite (submitAnalysis_failure_path host c file plant (SyntaxError m) Hf Hp)
      by (right; split; [exact Hend | now exists m]).
    cbn. auto.
  - destruct (submitAnalysis_commits host c file plant parsedData history
                Hf Hp Hend Hparse Hh) as (Hphase & _ & Hnew & _).
    now split.
Qed.


(** C6, as the code has it.  A parse failure after a normal end of the
    stream shows the fixed parse message, leaves the accumulated payload in
    the partial text and writes it to the console; a throw of the stream
    that is no [SyntaxError] shows the message of the [Error] thrown (the
    fixed unknown-error message for a value that is no [Error]); the two
    differ as soon as that message is not the parse message. *)
Theorem C6_parse_failure_message_and_payload (hostP hostT : Host) (cP cT : Config)
    (fileP fileT : File) (plantP plantT : PlantProfile) (m : string) (err : Thrown) :
  imageFile (app cP) = Some fileP ->
  activePlant (app cP) = Some plantP ->
  imageFile (app cT) = Some fileT ->
  activePlant (app cT) = Some plantT ->
  let streamP := streamOf hostP cP fileP plantP in
  let streamT := streamOf hostT cT fileT plantT in
  ending streamP = None ->
  JSON_parse hostP (concatAll (chunks streamP)) = inl m ->
  ending streamT = Some err ->
  (forall msg, err <> SyntaxError msg) ->
  err <> Error parseErrorMessage ->
  let cP' := submitAnalysis hostP cP in
  let cT' := submitAnalysis hostT cT in
  phase (app cP') = FailedWith parseErrorMessage
  /\ phase (app cT')
     = FailedWith (match err with Error msg => msg | _ => unknownErrorMessage end)
  /\ phase (app cP') <> phase (app cT')
  /\ streamingText (app cP') = concatAll (chunks streamP)
  /\ consoleErrors (world cP')
     = (consoleErrors (world cP)
          ++ [("Full response received before parsing error:",
               concatAll (chunks streamP))])%list.
Proof.
  intros HfP HpP HfT HpT streamP streamT HendP Hparse HendT Hkind Hmsg cP' cT'.
  assert (HrunP := submitAnalysis_failure_path hostP cP fileP plantP (SyntaxError m) HfP HpP
                     (or_intror (conj HendP (ex_intro _ m (conj Hparse eq_refl))))).
  assert (HrunT := submitAnalysis_failure_path hostT cT fileT plantT err HfT HpT
                     (or_introl HendT)).
  fold streamP in HrunP. fold streamT in HrunT. fold cP' in HrunP. fold cT' in HrunT.
  rewrite HrunP, HrunT.
  destruct err as [msg|msg|].
  - now destruct (Hkind msg).
  - cbn. repeat split.
    intros [= Heq]. apply Hmsg. now rewrite Heq.
  - cbn. repeat split. discriminate.
Qed.

(** *** The loading flag *)

Lemma settle_not_loading (host : Host) (a : Attempt) (c : Config) :
  isLoading (app (settle host a c)) = false.
Proof.
  unfold settle.
  destruct (match att_ending a with Some _ => _ | None => _ end) as [[err|] c0];
    reflexivity.
Qed.

Lemma submitAnalysis_started_not_loading (host : Host) (c : Config)
    (file : File) (plant : PlantProfile) :
  imageFile (app c) = Some file ->
  activePlant (app c) = Some plant ->
  isLoading (app (submitAnalysis host c)) = false.
Proof.
  intros Hf Hp. rewrite (submitAnalysis_started host c file plant Hf Hp).
  apply settle_not_loading.
Qed.


Lemma loadingImpliesReady_initial : loadingImpliesReady initialConfig.
Proof. unfold loadingImpliesReady. simpl. discriminate. Qed.

Lemma loadingImpliesReady_begin (host : Host) (c : Config) :
  loadingImpliesReady c -> loadingImpliesReady (fst (begin host c)).
Proof.
  unfold loadingImpliesReady, begin. intros Hinv.
  destruct (imageFile (app c)) as [file|] eqn:Hf;
    [destruct (activePlant (app c)) as [plant|] eqn:Hp|]; cbn.
  - rewrite Hf, Hp. intros _. split; discriminate.
  - rewrite Hf, Hp. exact Hinv.
  - rewrite Hf. exact Hinv.
Qed.

Lemma loadingImpliesReady_resume (host : Host) (a : Attempt) (c : Config) :
  loadingImpliesReady c -> loadingImpliesReady (fst (resume host a c)).
Proof.
  unfold loadingImpliesReady, resume. intros Hinv.
  destruct (att_pending a) as [|chunk rest]; cbn [fst].
  - rewrite settle_not_loading. discriminate.
  - cbn. exact Hinv.
Qed.

Lemma loadingImpliesReady_react (host : Host) (e : Event) (s : System) :
  loadingImpliesReady (config s) -> loadingImpliesReady (config (react host e s)).
Proof.
  intros Hinv. destruct e; cbn [react].
  - unfold loadingImpliesReady. cbn. discriminate.
  - unfold loadingImpliesReady. cbn. intros Hl. split; [discriminate|].
    now apply Hinv.
  - unfold loadingImpliesReady, handleQuickAnalysis.
    destruct (addPlant host _ _) as [[m|m|]|[newPlant profiles]]; cbn; try exact Hinv.
    intros _. split; discriminate.
  - exact Hinv.
  - destruct (addPlant host _ _) as [err|[newPlant profiles]]; exact Hinv.
  - unfold loadingImpliesReady. cbn. discriminate.
  - pose proof (loadingImpliesReady_begin host (config s) Hinv) as Hb.
    destruct (begin host (config s)) as [c' [a|]]; exact Hb.
  - destruct (nth_error (suspended s) i) as [a|]; [|exact Hinv].
    pose proof (loadingImpliesReady_resume host a (config s) Hinv) as Hr.
    destruct (resume host a (config s)) as [c' a']. exact Hr.
Qed.

Lemma reachable_loadingImpliesReady (host : Host) (s : System) :
  reachable host s -> loadingImpliesReady (config s).
Proof.
  induction 1 as [|s e _ IH].
  - exact loadingImpliesReady_initial.
  - now apply loadingImpliesReady_react.
Qed.

(** C10. In every configuration the component can reach, by its callbacks
    and by calls of [submitAnalysis] suspended and resumed in any order, a
    call of [submitAnalysis] leaves the loading flag down when it ends:
    run to its end without interruption, ended at the check of line 112,
    or ended by the last resumption of a suspended call. *)
Theorem C10_loading_flag_down_after_submit (host : Host) (s : System) :
  reachable host s ->
  isLoading (app (submitAnalysis host (config s))) = false
  /\ (forall c', begin host (config s) = (c', None) -> isLoading (app c') = false)
  /\ (forall a c', In a (suspended s) ->
        resume host a (config s) = (c', None) -> isLoading (app c') = false).
Proof.
  intros Hreach.
  pose proof (reachable_loadingImpliesReady host s Hreach) as Hinv.
  assert (Hidle : imageFile (app (config s)) = None \/ activePlant (app (config s)) = None ->
                  isLoading (app (config s)) = false).
  { intros Hmissing. destruct (isLoading (app (config s))) eqn:Hl; [|reflexivity].
    destruct (Hinv Hl) as [Hi Ha]. destruct Hmissing; contradiction. }
  split; [|split].
  - destruct (imageFile (app (config s))) as [file|] eqn:Hf;
      [destruct (activePlant (app (config s))) as [plant|] eqn:Hp|].
    + now apply (submitAnalysis_started_not_loading host _ file plant).
    + unfold submitAnalysis. rewrite Hf, Hp. cbn. auto.
    + unfold submitAnalysis. rewrite Hf. cbn. auto.
  - intros c'. unfold begin.
    destruct (imageFile (app (config s))) as [file|] eqn:Hf;
      [destruct (activePlant (app (config s))) as [plant|] eqn:Hp|].
    + discriminate.
    + intros [= <-]. cbn. auto.
    + intros [= <-]. cbn. auto.
  - intros a c' _. unfold resume.
    destruct (att_pending a); [|discriminate].
    intros [= <-]. apply settle_not_loading.
Qed.



(* ================================================================== *)
(** ** The properties on concrete runs *)
(* ================================================================== *)

(** C5 at a clock that shows the same instant twice.  The identifier of a
    record is the clock reading of line 139, so two commits made at the same
    reading carry the same [id]: two analyses of Basil in a row leave two
    records with one identifier in its history, and two attempts in flight
    at once leave one such record with Basil and another with Mint. *)
Theorem C5_same_clock_reading_same_id :
  let host := hostWith sameInstant (fun _ => mkStream ["{"; "}"] None) in
  let first := stampedOnly "blob:leaf.jpg#1" in
  let second := stampedOnly "blob:leaf.jpg#3" in
  historyOf "plant-0" (plantProfiles (world (config (play host twoAnalysesOfBasil))))
  = Some [first; second]
  /\ first <> second
  /\ get_prop "id" first = get_prop "id" second
  /\ historyOf "plant-0" (plantProfiles (world (config (play host overlappingAttempts))))
     = Some [stampedOnly "blob:leaf.jpg#2"]
  /\ historyOf "plant-1" (plantProfiles (world (config (play host overlappingAttempts))))
     = Some [stampedOnly "blob:leaf.jpg#3"]
  /\ get_prop "id" (stampedOnly "blob:leaf.jpg#2")
     = get_prop "id" (stampedOnly "blob:leaf.jpg#3").
Proof.
  cbv zeta. split; [vm_compute; reflexivity|]. split; [discriminate|].
  split; [vm_compute; reflexivity|]. split; [vm_compute; reflexivity|].
  split; vm_compute; reflexivity.
Qed.

(** C2 fails as stated: a payload that parses but has none of the required
    fields, and one that has them all with a confidence of 1.5 and a tag
    outside the four, both end the attempt succeeded, with the record in
    the history of the active plant. *)
Lemma C2_unvalidated_payload_succeeds :
  let run fragments :=
    submitAnalysis (hostWith tick (fun _ => mkStream fragments None)) (ready basil [basil]) in
  (JSON.parse (concatAll ["{"; "}"]) = Some (JObject [])
   /\ missesRequiredField (JObject []) = true
   /\ exists record,
        phase (app (run ["{"; "}"])) = SucceededWith record
        /\ historyOf "plant-0" (plantProfiles (world (run ["{"; "}"]))) = Some [record])
  /\ (exists parsedData record,
        JSON.parse (concatAll overconfidentChunks) = Some parsedData
        /\ missesRequiredField parsedData = false
        /\ confidenceOutOfRange parsedData = true
        /\ progressTagInvalid parsedData = true
        /\ phase (app (run overconfidentChunks)) = SucceededWith record
        /\ historyOf "plant-0" (plantProfiles (world (run overconfidentChunks)))
           = Some [record]).
Proof.
  cbv zeta. split.
  - split; [vm_compute; reflexivity|]. split; [vm_compute; reflexivity|].
    eexists. split; vm_compute; reflexivity.
  - eexists _, _.
    split; [vm_compute; reflexivity|]. split; [vm_compute; reflexivity|].
    split; [vm_compute; reflexivity|]. split; [vm_compute; reflexivity|].
    split; vm_compute; reflexivity.
Qed.

(** C6 fails as stated: after the same two chunks, a stream that ends
    normally on text that does not parse and a stream that throws a
    [SyntaxError] leave the very same configuration, and a stream that
    throws an [Error] whose message is the parse message leaves the very
    same state cells, so nothing the caller reads tells the parse failure
    from the failure of the stream. *)
Lemma C6_parse_and_stream_failure_alike :
  let parseFails := hostWith tick (fun _ => mkStream truncatedChunks None) in
  let streamFails :=
    hostWith tick
      (fun _ => mkStream truncatedChunks (Some (SyntaxError "Unexpected end of data"))) in
  let streamFails' :=
    hostWith tick (fun _ => mkStream truncatedChunks (Some (Error parseErrorMessage))) in
  let c := ready basil [basil] in
  ending (streamOf parseFails c leaf basil) = None
  /\ JSON.parse (concatAll (chunks (streamOf parseFails c leaf basil))) = None
  /\ ending (streamOf streamFails c leaf basil) = Some (SyntaxError "Unexpected end of data")
  /\ submitAnalysis parseFails c = submitAnalysis streamFails c
  /\ app (submitAnalysis parseFails c) = app (submitAnalysis streamFails' c)
  /\ phase (app (submitAnalysis streamFails c)) = FailedWith parseErrorMessage.
Proof.
  cbv zeta.
  split; [vm_compute; reflexivity|]. split; [vm_compute; reflexivity|].
  split; [vm_compute; reflexivity|]. split; [vm_compute; reflexivity|].
  split; vm_compute; reflexivity.
Qed.

(** C4 fails as stated when the history meant is the one of the store:
    Basil is picked again from the plant list while its first analysis
    still streams, the first analysis then commits its record, and the
    second attempt, started from the screen, finds one record in the
    store's history of the active plant and still sends the engine no
    previous record. *)
Lemma C4_stale_plant_sends_no_previous :
  let host := hostWith tick (fun _ => mkStream ["{"; "}"] None) in
  exists s record,
    playFrom host initialSystem secondAnalysisOfStaleBasil = Some s
    /\ activePlant (app (config s)) = Some basil
    /\ historyOf "plant-0" (plantProfiles (world (config s))) = Some [record]
    /\ mostRecent "plant-0" (plantProfiles (world (config s))) = Some record
    /\ map req_previous (requests (world (config s))) = [None; None].
Proof.
  cbv zeta. eexists _, _.
  split; [vm_compute; reflexivity|]. split; [vm_compute; reflexivity|].
  split; [vm_compute; reflexivity|]. split; vm_compute; reflexivity.
Qed.

(** C7 fails as stated.  With an attempt for Mint started while the one for
    Basil still streams, the partial text after Mint's first chunk B1 reads
    A1B1; and with one attempt and "Back to My Plants" pressed after its
    first chunk, the partial text after the second chunk reads A2 while the
    call itself holds A1A2.  Every event of both runs comes through the
    screen shown at the time. *)
Lemma C7_buffer_is_shared_and_reset :
  (exists s a,
     playFrom twoStreams initialSystem mintStartedWhileBasilStreams = Some s
     /\ nth_error (suspended s) 1 = Some a
     /\ att_plant a = mint
     /\ att_fullResponse a = "B1"
     /\ streamingText (app (config s)) = "A1B1")
  /\ (exists s a,
        playFrom twoStreams initialSystem backAfterFirstChunk = Some s
        /\ suspended s = [a]
        /\ att_fullResponse a = "A1A2"
        /\ streamingText (app (config s)) = "A2").
Proof.
  split; eexists _, _.
  - split; [vm_compute; reflexivity|]. split; [vm_compute; reflexivity|].
    split; [vm_compute; reflexivity|]. split; vm_compute; reflexivity.
  - split; [vm_compute; reflexivity|]. split; [vm_compute; reflexivity|].
    split; vm_compute; reflexivity.
Qed.

(** *** Instances *)

Lemma C1_witness :
  let host := hostWith tick (fun _ => mkStream basilChunks None) in
  let c := ready basil [basil] in
  phase (app (submitAnalysis host c)) = SucceededWith basilRecord
  /\ get_prop "plantName" basilRecord = Some (JString "Basil")
  /\ get_prop "confidenceScore" basilRecord = Some (JNumber (23 # 25))
  /\ get_prop "progressAssessment" basilRecord = Some (JString "N/A")
  /\ (let stream := streamOf host c leaf basil in
      ending stream = None
      /\ exists parsedData,
           JSON_parse host (concatAll (chunks stream)) = inr parsedData
           /\ (forall k, In k PredictionData_keys ->
                 get_prop k basilRecord = fieldOf parsedData k)
           /\ (forall props, parsedData = JObject props ->
               forall k, In k PredictionData_keys ->
                 get_prop k basilRecord = get_prop k props)
           /\ (forall k, In k PredictionData_keys ->
                 get_prop k basilRecord = get_prop k (own_props parsedData))
           /\ (forall k, ~ In k AnalysisRecord_keys ->
                 get_prop k basilRecord = get_prop k (own_props parsedData))).
Proof.
  intros host c.
  assert (Hphase : phase (app (submitAnalysis host c)) = SucceededWith basilRecord)
    by (vm_compute; reflexivity).
  split; [exact Hphase|].
  split; [reflexivity|]. split; [reflexivity|]. split; [reflexivity|].
  apply (C1_record_fields_are_parsed_concatenation host c leaf basil basilRecord);
    [reflexivity | reflexivity | exact Hphase].
Defined.

Lemma C2_witness :
  let host := hostWith tick (fun _ => mkStream overconfidentChunks None) in
  let c := ready basil [basil] in
  let c' := submitAnalysis host c in
  let record :=
    fst (newAnalysisRecord host overconfidentParsed leaf (environmentalData (app c)) c) in
  JSON_parse host (concatAll (chunks (streamOf host c leaf basil))) = inr overconfidentParsed
  /\ confidenceOutOfRange overconfidentParsed = true
  /\ phase (app c') = SucceededWith record
  /\ historyOf "plant-0" (plantProfiles (world c')) = Some [record].
Proof.
  intros host c c' record.
  assert (Hparse : JSON_parse host (concatAll (chunks (streamOf host c leaf basil)))
                   = inr overconfidentParsed) by (vm_compute; reflexivity).
  split; [exact Hparse|]. split; [vm_compute; reflexivity|].
  pose proof (C2_only_syntax_is_checked host c leaf basil []
                eq_refl eq_refl eq_refl eq_refl) as Hrun.
  cbv zeta in Hrun. rewrite Hparse in Hrun. exact Hrun.
Defined.


Lemma C4_witness :
  let host := hostWith tick (fun _ => mkStream basilChunks None) in
  let c := ready basilAgain [basilAgain] in
  exists previous,
    requests (world (submitAnalysis host c))
    = (requests (world c) ++ [mkRequest leaf (environmentalData (app c)) previous])%list
    /\ (PlantProfile.analysisHistory basilAgain = [] -> previous = None)
    /\ (forall earlier r,
          PlantProfile.analysisHistory basilAgain = (earlier ++ [r])%list ->
          previous = Some r)
    /\ (historyOf (PlantProfile.id basilAgain) (plantProfiles (world c))
        = Some (PlantProfile.analysisHistory basilAgain) ->
        previous = mostRecent (PlantProfile.id basilAgain) (plantProfiles (world c))).
Proof.
  intros host c.
  apply (C4_previous_record_is_last_of_history host c leaf basilAgain); reflexivity.
Defined.

Lemma C6_witness :
  let hostP := hostWith tick (fun _ => mkStream truncatedChunks None) in
  let hostT :=
    hostWith tick (fun _ => mkStream truncatedChunks (Some (Error "network down"))) in
  let c := ready basil [basil] in
  let cP' := submitAnalysis hostP c in
  let cT' := submitAnalysis hostT c in
  phase (app cP') = FailedWith parseErrorMessage
  /\ phase (app cT') = FailedWith "network down"
  /\ phase (app cP') <> phase (app cT')
  /\ streamingText (app cP') = concatAll (chunks (streamOf hostP c leaf basil))
  /\ consoleErrors (world cP')
     = (consoleErrors (world c)
          ++ [("Full response received before parsing error:",
               concatAll (chunks (streamOf hostP c leaf basil)))])%list.
Proof.
  intros hostP hostT c.
  apply (C6_parse_failure_message_and_payload hostP hostT c c leaf leaf basil basil
           "Unexpected token in JSON" (Error "network down"));
    [reflexivity | reflexivity | reflexivity | reflexivity | reflexivity
    | vm_compute; reflexivity | reflexivity
    | intros msg; discriminate | discriminate ].
Defined.

Lemma C7_witness :
  let host := hostWith tick (fun _ => mkStream basilChunks None) in
  let c := ready basilAgain [basilAgain] in
  let fragments := chunks (streamOf host c leaf basilAgain) in
  let entered := fst (begin host c) in
  (isLoading (app entered) = true
   /\ streamingText (app entered) = ""
   /\ finalPrediction (app entered) = None
   /\ error (app entered) = None)
  /\ (exists ck ak,
        resumed host 2 (begin host c) = (ck, Some ak)
        /\ streamingText (app ck) = concatAll (firstn 2 fragments)
        /\ att_fullResponse ak = concatAll (firstn 2 fragments)
        /\ att_pending ak = skipn 2 fragments
        /\ finalPrediction (app ck) = None
        /\ error (app ck) = None)
  /\ (forall a c0 chunk rest,
        att_pending a = chunk :: rest ->
        exists a',
          resume host a c0
          = (updStreamingText (fun prev => prev ++ chunk) c0, Some a')
          /\ streamingText (app (fst (resume host a c0)))
             = streamingText (app c0) ++ chunk
          /\ att_fullResponse a' = att_fullResponse a ++ chunk
          /\ att_pending a' = rest).
Proof.
  intros host c.
  apply (C7_buffer_after_k_fragments host c leaf basilAgain 2);
    [reflexivity | reflexivity | simpl; lia].
Defined.

Lemma C8_witness :
  let host := hostWith tick (fun _ => mkStream basilChunks None) in
  let c' := submitAnalysis host initialConfig in
  error (app c') = Some preconditionMessage
  /\ world c' = world initialConfig
  /\ streamingText (app c') = streamingText (app initialConfig)
  /\ finalPrediction (app c') = finalPrediction (app initialConfig).
Proof.
  intros host.
  destruct (C8_precondition_failure_changes_only_error host initialConfig
              (or_introl eq_refl))
    as (_ & _ & Herror & Hworld & _ & _ & Htext & Hresult & _).
  repeat split; assumption.
Defined.

Lemma C9_witness :
  let records := [stampedOnly "blob:leaf.jpg#1"; basilRecord] in
  exists profiles',
    commitAll "plant-0" records [basil; mint] = inr profiles'
    /\ historyOf "plant-0" profiles' = Some records
    /\ mostRecent "plant-0" profiles' = Some basilRecord.
Proof.
  intros records.
  destruct (C9_history_is_commit_order "plant-0" [basil; mint] records eq_refl)
    as ((profiles' & Hrun & Hh & _ & Hlast) & _).
  exists profiles'. split; [exact Hrun|]. split; [exact Hh|].
  exact (proj2 (Hlast [stampedOnly "blob:leaf.jpg#1"] basilRecord eq_refl)).
Defined.

Lemma C10_witness :
  let host := hostWith tick (fun _ => mkStream basilChunks None) in
  isLoading (app (submitAnalysis host (config initialSystem))) = false
  /\ phase (app (submitAnalysis host (config initialSystem)))
     = FailedWith preconditionMessage.
Proof.
  intros host. split; [|reflexivity].
  exact (proj1 (C10_loading_flag_down_after_submit host initialSystem
                  (reachable_initial host))).
Defined.

(* ================================================================== *)
(** ** Further properties of the handlers and of the views *)
(* ================================================================== *)

Lemma submitAnalysis_without_image (host : Host) (c : Config) :
  imageFile (app c) = None ->
  submitAnalysis host c = setError (Some preconditionMessage) c.
Proof. intros Hf. unfold submitAnalysis. now rewrite Hf. Qed.

(** X1. "Back to My Plants" brings every state cell back to its initial
    value, whatever was going on, leaves the store and the rest of the
    world alone and shows the plant list; a call of [submitAnalysis] made
    then fails the check of line 112. *)
Theorem X1_back_to_plants_restores_initial_state (host : Host) (c : Config) :
  app (resetToHome c) = initialApp
  /\ world (resetToHome c) = world c
  /\ renderContent (resetToHome c) = ProfilerScreen (plantProfiles (world c))
  /\ submitAnalysis host (resetToHome c)
     = setError (Some preconditionMessage) (resetToHome c).
Proof.
  split; [reflexivity|]. split; [reflexivity|]. split; [reflexivity|].
  apply submitAnalysis_without_image. reflexivity.
Qed.

(** X2. Starting an analysis for a plant drops what the previous one left
    (image, form data, partial text, result, error, loading flag): the
    ANALYSIS view comes up for that plant with an empty form, no preview
    and the start button disabled, and a call of [submitAnalysis] made
    before an image is uploaded fails the check of line 112. *)
Theorem X2_start_analysis_discards_previous_attempt (host : Host)
    (plant : PlantProfile) (c : Config) :
  let c' := handleStartAnalysis plant c in
  app c' = mkApp (Some plant) None None initialEnvironmentalData "" None false None ANALYSIS
  /\ world c' = world c
  /\ renderContent c'
     = AnalysisScreen (PlantProfile.name plant) false initialEnvironmentalData None
         true "Start Analysis"
  /\ offered (renderContent c') Submit = false
  /\ submitAnalysis host c' = setError (Some preconditionMessage) c'.
Proof.
  intros c'.
  split; [reflexivity|]. split; [reflexivity|]. split; [reflexivity|].
  split; [reflexivity|].
  apply submitAnalysis_without_image. reflexivity.
Qed.

(** X3. A quick analysis does not reset anything.  When [addPlant] returns,
    the new plant becomes active with the image uploaded and the ANALYSIS
    view, while the form data, the partial text, the result, the error and
    the loading flag stay what the previous attempt left.  When [addPlant]
    throws, the message of the error (a fixed message for a value that is no
    [Error]) goes to the error cell and nothing else changes: no plant, no
    image, no view, no profile. *)
Theorem X3_quick_analysis_resets_nothing (host : Host) (file : File) (c : Config) :
  let c' := handleQuickAnalysis host file c in
  let name := "New Plant - " ++ Date_toLocaleString host (dateCalls (world c)) in
  match addPlant host name (plantProfiles (world c)) with
  | inr (newPlant, profiles) =>
      activePlant (app c') = Some newPlant
      /\ imageFile (app c') = Some file
      /\ imageUrl (app c') = Some (URL_createObjectURL host (urlCalls (world c)) file)
      /\ currentView (app c') = ANALYSIS
      /\ plantProfiles (world c') = profiles
      /\ environmentalData (app c') = environmentalData (app c)
      /\ streamingText (app c') = streamingText (app c)
      /\ finalPrediction (app c') = finalPrediction (app c)
      /\ error (app c') = error (app c)
      /\ isLoading (app c') = isLoading (app c)
  | inl err =>
      app c'
      = app (setError
               (Some match err with
                     | SyntaxError m | Error m => m
                     | NonError => "An unexpected error occurred while creating a new plant."
                     end) c)
      /\ plantProfiles (world c') = plantProfiles (world c)
      /\ requests (world c') = requests (world c)
  end.
Proof.
  intros c' name. unfold c', handleQuickAnalysis. fold name.
  change (plantProfiles (world (tickDate c))) with (plantProfiles (world c)).
  destruct (addPlant host name (plantProfiles (world c))) as [[m|m|]|[newPlant profiles]];
    cbn; repeat split.
Qed.

(** X4. After "start analysis" for a plant, the upload of an image and a
    change of the form, the start button is enabled and the attempt sends
    the engine one request: that image, that form data, and the last record
    of the plant as it was handed to "start analysis". *)
Theorem X4_request_carries_upload_and_form (host : Host) (c : Config)
    (plant : PlantProfile) (file : File) (data : EnvironmentalData) :
  let prepared :=
    c |> handleStartAnalysis plant
      |> handleImageUpload host file
      |> setEnvironmentalData data in
  offered (renderContent prepared) Submit = true
  /\ requests (world (submitAnalysis host prepared))
     = (requests (world c) ++ [mkRequest file data (previousAnalysisOf plant)])%list.
Proof.
  intros prepared. split; [reflexivity|].
  rewrite (submitAnalysis_started host prepared file plant eq_refl eq_refl).
  rewrite settle_requests. reflexivity.
Qed.

Lemma resume_requests (host : Host) (a : Attempt) (c : Config) :
  requests (world (fst (resume host a c))) = requests (world c).
Proof.
  unfold resume. destruct (att_pending a) as [|chunk rest]; cbn [fst].
  - apply settle_requests.
  - reflexivity.
Qed.

Lemma begin_requests (host : Host) (c : Config) :
  requests (world (fst (begin host c))) = (requests (world c) ++ requestOf c)%list.
Proof.
  unfold begin, requestOf.
  destruct (imageFile (app c)) as [file|]; [destruct (activePlant (app c)) as [plant|]|];
    cbn; now rewrite ?app_nil_r.
Qed.

Lemma react_requests (host : Host) (e : Event) (s : System) :
  requests (world (config (react host e s)))
  = (requests (world (config s))
       ++ match e with Submit => requestOf (config s) | _ => [] end)%list.
Proof.
  destruct e; cbn [react]; rewrite ?app_nil_r; try reflexivity.
  - unfold handleQuickAnalysis.
    destruct (addPlant host _ _) as [[m|m|]|[newPlant profiles]]; reflexivity.
  - destruct (addPlant host _ _) as [err|[newPlant profiles]]; reflexivity.
  - rewrite <- (begin_requests host). now destruct (begin host (config s)) as [c' [a|]].
  - destruct (nth_error (suspended s) i) as [a|]; [|reflexivity].
    rewrite <- (resume_requests host a (config s)).
    now destruct (resume host a (config s)) as [c' a'].
Qed.

(** X5. Only a call of [submitAnalysis] contacts the engine, and only
    once: whatever happens to the component, the log of requests is left as
    it is, except that a call made with an image and an active plant adds
    one request for them; requests sent are never dropped or rewritten. *)
Theorem X5_only_submit_contacts_the_engine (host : Host) (e : Event) (s : System) :
  requests (world (config (react host e s)))
  = (requests (world (config s))
       ++ match e with Submit => requestOf (config s) | _ => [] end)%list
  /\ List.length (requestOf (config s)) <= 1.
Proof.
  split; [apply react_requests|].
  unfold requestOf.
  destruct (imageFile (app (config s))); [destruct (activePlant (app (config s)))|];
    simpl; lia.
Qed.

(** *** Invariants of the views *)

Lemma settle_keeps_cells (host : Host) (a : Attempt) (c : Config) :
  activePlant (app (settle host a c)) = activePlant (app c)
  /\ imageFile (app (settle host a c)) = imageFile (app c)
  /\ imageUrl (app (settle host a c)) = imageUrl (app c)
  /\ environmentalData (app (settle host a c)) = environmentalData (app c)
  /\ currentView (app (settle host a c)) = currentView (app c)
  /\ streamingText (app (settle host a c)) = streamingText (app c).
Proof.
  destruct a as [file plant env text pending ending0].
  unfold settle, commit, newAnalysisRecord.
  cbn [att_ending att_file att_plant att_environment att_fullResponse].
  destruct ending0 as [[m|m|]|]; cbn; auto 10.
  destruct (JSON_parse host text) as [m|parsedData]; cbn; auto 10.
  destruct (addAnalysisToPlant _ _ _) as [err|profiles]; cbn; auto 10.
  destruct err; cbn; auto 10.
Qed.

Lemma viewsConsistent_initial : viewsConsistent initialConfig.
Proof. unfold viewsConsistent. cbn. intuition discriminate. Qed.

Lemma viewsConsistent_begin (host : Host) (c : Config) :
  viewsConsistent c -> viewsConsistent (fst (begin host c)).
Proof.
  unfold viewsConsistent, begin. intros (Hprofiler & Hurl & Hresult).
  destruct (imageFile (app c)) as [file|] eqn:Hf;
    [destruct (activePlant (app c)) as [plant|] eqn:Hp|]; cbn; rewrite ?Hf, ?Hp.
  - split; [|split]; [intuition discriminate | exact Hurl | discriminate].
  - split; [|split]; assumption.
  - split; [|split]; assumption.
Qed.

Lemma viewsConsistent_resume (host : Host) (a : Attempt) (c : Config) :
  viewsConsistent c -> viewsConsistent (fst (resume host a c)).
Proof.
  unfold viewsConsistent, resume. intros Hinv.
  destruct (att_pending a) as [|chunk rest]; cbn [fst].
  - destruct (settle_keeps_cells host a c) as (-> & -> & -> & _ & -> & _). exact Hinv.
  - exact Hinv.
Qed.

Lemma viewsConsistent_react (host : Host) (e : Event) (s : System) :
  viewsConsistent (config s) -> viewsConsistent (config (react host e s)).
Proof.
  intros Hinv. destruct e; cbn [react].
  - unfold viewsConsistent. cbn. intuition discriminate.
  - destruct Hinv as (Hprofiler & Hurl & Hresult).
    unfold viewsConsistent. cbn. intuition discriminate.
  - unfold handleQuickAnalysis.
    destruct (addPlant host _ _) as [[m|m|]|[newPlant profiles]]; try exact Hinv.
    unfold viewsConsistent. cbn. intuition discriminate.
  - exact Hinv.
  - destruct (addPlant host _ _) as [err|[newPlant profiles]]; exact Hinv.
  - unfold viewsConsistent. cbn. intuition discriminate.
  - pose proof (viewsConsistent_begin host (config s) Hinv) as Hb.
    destruct (begin host (config s)) as [c' [a|]]; exact Hb.
  - destruct (nth_error (suspended s) i) as [a|]; [|exact Hinv].
    pose proof (viewsConsistent_resume host a (config s) Hinv) as Hr.
    destruct (resume host a (config s)) as [c' a']. exact Hr.
Qed.

(** X6. Whatever events reach the component, in whatever order, the views
    find what they take for granted: the plant list is shown exactly when
    no plant is active, so the ANALYSIS view always has its plant and
    [renderContent] never renders nothing; the image and its URL are set
    together; and the RESULT view is only shown with an image, so the
    [imageUrl!] of line 227 is never [null]. *)
Theorem X6_views_find_what_they_assume (host : Host) (s : System) :
  reachable host s ->
  viewsConsistent (config s)
  /\ renderContent (config s) <> NothingRendered
  /\ (currentView (app (config s)) = RESULT -> imageUrl (app (config s)) <> None).
Proof.
  intros Hreach.
  assert (Hinv : viewsConsistent (config s)).
  { induction Hreach as [|s e _ IH].
    - exact viewsConsistent_initial.
    - now apply viewsConsistent_react. }
  split; [exact Hinv|]. destruct Hinv as (Hprofiler & Hurl & Hresult). split.
  - unfold renderContent.
    destruct (currentView (app (config s))) eqn:Hview; try discriminate.
    destruct (activePlant (app (config s))) eqn:Hplant; [discriminate|].
    destruct Hprofiler as [_ Hback]. discriminate (Hback eq_refl).
  - intros Hview Hnone. apply (Hresult Hview). now apply Hurl.
Qed.

(** *** What the screens let through *)

(** X7. The start button is enabled only when an image is chosen and no
    attempt is signalled as under way, in the ANALYSIS view of an active
    plant: a call of [submitAnalysis] that comes from the button passes the
    check of line 112, starts an attempt and sends its request. *)
Theorem X7_enabled_start_button_passes_the_check (host : Host) (c : Config) :
  offered (renderContent c) Submit = true ->
  exists file plant,
    imageFile (app c) = Some file
    /\ activePlant (app c) = Some plant
    /\ isLoading (app c) = false
    /\ currentView (app c) = ANALYSIS
    /\ exists c' a,
         begin host c = (c', Some a)
         /\ att_file a = file /\ att_plant a = plant
         /\ requests (world c')
            = (requests (world c)
                 ++ [mkRequest file (environmentalData (app c))
                       (previousAnalysisOf plant)])%list.
Proof.
  unfold renderContent, offered, begin.
  destruct (currentView (app c)); try discriminate.
  destruct (activePlant (app c)) as [plant|]; [|discriminate].
  destruct (imageFile (app c)) as [file|]; [|discriminate].
  destruct (isLoading (app c)); [discriminate|]. intros _.
  exists file, plant. repeat split. eexists _, _. repeat split.
Qed.

Lemma offered_view (c : Config) (e : Event) :
  offered (renderContent c) e = true ->
  match e with
  | Resume _ => True
  | StartAnalysis _ | QuickAnalysis _ | AddPlant _ => currentView (app c) = PROFILER
  | ImageUpload _ | EnvironmentChange _ | Submit => currentView (app c) = ANALYSIS
  | BackToPlants => currentView (app c) <> PROFILER
  end.
Proof.
  unfold renderContent, offered.
  destruct e, (currentView (app c)); try discriminate; try reflexivity;
    try (intros _; discriminate);
    destruct (activePlant (app c)); try discriminate; reflexivity.
Qed.

Lemma loadingMeansStreaming_idle (c : Config) :
  loadingMeansStreaming c -> currentView (app c) <> RESULT -> isLoading (app c) = false.
Proof.
  intros Hinv Hview. destruct (isLoading (app c)) eqn:Hl; [|reflexivity].
  destruct (Hinv Hl) as (Hresult & _). contradiction.
Qed.

Lemma loadingMeansStreaming_react (host : Host) (e : Event) (s : System) :
  loadingMeansStreaming (config s) ->
  offered (renderContent (config s)) e = true ->
  loadingMeansStreaming (config (react host e s)).
Proof.
  intros Hinv Hoff. pose proof (offered_view _ _ Hoff) as Hview.
  assert (Hidle : currentView (app (config s)) <> RESULT ->
                  isLoading (app (config s)) = false)
    by apply (loadingMeansStreaming_idle _ Hinv).
  destruct e; cbn [react]; cbn in Hview.
  - unfold loadingMeansStreaming. cbn. discriminate.
  - unfold loadingMeansStreaming. cbn. rewrite Hidle by (rewrite Hview; discriminate).
    discriminate.
  - unfold loadingMeansStreaming, handleQuickAnalysis.
    destruct (addPlant host _ _) as [[m|m|]|[newPlant profiles]]; cbn;
      rewrite Hidle by (rewrite Hview; discriminate); discriminate.
  - unfold loadingMeansStreaming. cbn. rewrite Hidle by (rewrite Hview; discriminate).
    discriminate.
  - destruct (addPlant host _ _) as [err|[newPlant profiles]]; exact Hinv.
  - unfold loadingMeansStreaming. cbn. discriminate.
  - unfold begin.
    destruct (imageFile (app (config s))) as [file|];
      [destruct (activePlant (app (config s))) as [plant|]|];
      unfold loadingMeansStreaming; cbn; auto;
      rewrite Hidle by (rewrite Hview; discriminate); discriminate.
  - destruct (nth_error (suspended s) i) as [a|]; [|exact Hinv].
    unfold resume. destruct (att_pending a) as [|chunk rest].
    + unfold loadingMeansStreaming. cbn [config]. rewrite settle_not_loading.
      discriminate.
    + exact Hinv.
Qed.

(** X8. As long as every event comes through the screen shown at the time,
    the loading flag is up only in the RESULT view, with no error and no
    result set; so the ANALYSIS view is never shown while the flag is up
    (its "Analyzing..." label and the [isLoading] it gives [ImageUploader]
    never show), and the spinner is the only panel a raised flag shows. *)
Theorem X8_loading_only_in_result_view (host : Host) (s : System) :
  reachableUI host s ->
  loadingMeansStreaming (config s)
  /\ (currentView (app (config s)) = ANALYSIS -> isLoading (app (config s)) = false)
  /\ (forall name loading data preview disabled label,
        renderContent (config s)
        = AnalysisScreen name loading data preview disabled label ->
        loading = false /\ label = "Start Analysis").
Proof.
  intros Hreach.
  assert (Hinv : loadingMeansStreaming (config s)).
  { induction Hreach as [|s e _ IH Hoff].
    - unfold loadingMeansStreaming. cbn. discriminate.
    - now apply loadingMeansStreaming_react. }
  assert (Hanalysis : currentView (app (config s)) = ANALYSIS ->
                      isLoading (app (config s)) = false).
  { intros Hview. apply (loadingMeansStreaming_idle _ Hinv). rewrite Hview. discriminate. }
  split; [exact Hinv|]. split; [exact Hanalysis|].
  intros name loading data preview disabled label. unfold renderContent.
  destruct (currentView (app (config s))) eqn:Hview; try discriminate.
  destruct (activePlant (app (config s))); [|discriminate].
  rewrite (Hanalysis eq_refl). intros [= _ <- _ _ _ <-]. now split.
Qed.

(** *** What the RESULT view shows *)

(** X9. While an attempt streams undisturbed, the RESULT view shows the
    spinner over exactly the chunks received so far, concatenated in
    arrival order, beside the preview image chosen before. *)
Theorem X9_spinner_shows_chunks_received (host : Host) (c : Config) (file : File)
    (plant : PlantProfile) (k : nat) :
  imageFile (app c) = Some file ->
  activePlant (app c) = Some plant ->
  k <= List.length (chunks (streamOf host c file plant)) ->
  renderContent (fst (resumed host k (begin host c)))
  = ResultScreen (option_map JString (imageUrl (app c)))
      (Spinner (concatAll (firstn k (chunks (streamOf host c file plant))))).
Proof.
  intros Hf Hp Hk. unfold begin. rewrite Hf, Hp.
  change (analyzePlantImage host _ file _ _) with (streamOf host c file plant).
  set (fragments := chunks (streamOf host c file plant)) in *.
  pose proof (resumed_chunks host (firstn k fragments) (skipn k fragments)
                (logRequest
                   (mkRequest file (environmentalData (app c)) (previousAnalysisOf plant))
                   (enterStreaming c))
                file plant (environmentalData (app c)) ""
                (ending (streamOf host c file plant))) as Hrun.
  rewrite firstn_skipn, firstn_length_le in Hrun by exact Hk.
  rewrite Hrun. reflexivity.
Qed.

(** X10. After an attempt that failed, the RESULT view keeps the preview
    image and shows "Analysis Failed" with the message of the [Error]
    thrown, the fixed parse message for a [SyntaxError] or a text that does
    not parse, the fixed unknown-error message for a value that is no
    [Error]; but an [Error] whose message is empty is shown as "Something
    went wrong", the empty string being falsy at line 242. *)
Theorem X10_failed_attempt_on_screen (host : Host) (c : Config)
    (file : File) (plant : PlantProfile) (err : Thrown) :
  imageFile (app c) = Some file ->
  activePlant (app c) = Some plant ->
  let stream := streamOf host c file plant in
  (ending stream = Some err
   \/ (ending stream = None
       /\ exists m, JSON_parse host (concatAll (chunks stream)) = inl m
                    /\ err = SyntaxError m)) ->
  renderContent (submitAnalysis host c)
  = ResultScreen (option_map JString (imageUrl (app c)))
      match err with
      | Error m => if String.eqb m "" then SomethingWentWrong else AnalysisFailed m
      | SyntaxError _ => AnalysisFailed parseErrorMessage
      | NonError => AnalysisFailed unknownErrorMessage
      end.
Proof.
  intros Hf Hp stream Hfail.
  rewrite (submitAnalysis_failure_path host c file plant err Hf Hp Hfail).
  destruct err as [m|m|]; try reflexivity.
  unfold renderContent, resultPanel, resultImageSrc, truthyString. cbn.
  now destruct (String.eqb m "").
Qed.

(** X11. After an attempt that succeeded, the RESULT view shows the new
    record, and the image beside it is the object URL created for the
    record at line 141, not the preview (which is used only if that URL is
    the empty string). *)
Theorem X11_succeeded_attempt_on_screen (host : Host) (c : Config) (file : File)
    (plant : PlantProfile) (parsedData : JSValue) (history : list AnalysisRecord) :
  imageFile (app c) = Some file ->
  activePlant (app c) = Some plant ->
  let stream := streamOf host c file plant in
  ending stream = None ->
  JSON_parse host (concatAll (chunks stream)) = inr parsedData ->
  historyOf (PlantProfile.id plant) (plantProfiles (world c)) = Some history ->
  let record := fst (newAnalysisRecord host parsedData file (environmentalData (app c)) c) in
  let url := URL_createObjectURL host (urlCalls (world c)) file in
  renderContent (submitAnalysis host c)
  = ResultScreen
      (if String.eqb url "" then option_map JString (imageUrl (app c))
       else Some (JString url))
      (Prediction record).
Proof.
  intros Hf Hp stream Hend Hparse Hh record url.
  destruct (submitAnalysis_commits host c file plant parsedData history
              Hf Hp Hend Hparse Hh) as (Hphase & _).
  fold record in Hphase.
  assert (Hview : currentView (app (submitAnalysis host c)) = RESULT).
  { rewrite (submitAnalysis_started host c file plant Hf Hp).
    destruct (settle_keeps_cells host
                (mkAttempt file plant (environmentalData (app c))
                   (concatAll (chunks (streamOf host c file plant))) []
                   (ending (streamOf host c file plant)))
                (enterStreaming c
                   |> logRequest (mkRequest file (environmentalData (app c))
                                    (previousAnalysisOf plant))
                   |> updStreamingText
                        (fun prev => prev ++ concatAll (chunks (streamOf host c file plant)))))
      as (_ & _ & _ & _ & -> & _).
    reflexivity. }
  assert (Hurl : imageUrl (app (submitAnalysis host c)) = imageUrl (app c)).
  { rewrite (submitAnalysis_started host c file plant Hf Hp).
    destruct (settle_keeps_cells host
                (mkAttempt file plant (environmentalData (app c))
                   (concatAll (chunks (streamOf host c file plant))) []
                   (ending (streamOf host c file plant)))
                (enterStreaming c
                   |> logRequest (mkRequest file (environmentalData (app c))
                                    (previousAnalysisOf plant))
                   |> updStreamingText
                        (fun prev => prev ++ concatAll (chunks (streamOf host c file plant)))))
      as (_ & _ & -> & _).
    reflexivity. }
  unfold phase in Hphase. unfold renderContent, resultPanel, resultImageSrc.
  rewrite Hview, Hurl.
  destruct (isLoading (app (submitAnalysis host c))); [discriminate|].
  destruct (error (app (submitAnalysis host c))); [discriminate|].
  destruct (finalPrediction (app (submitAnalysis host c))) as [r|]; [|discriminate].
  injection Hphase as ->.
  destruct (newAnalysisRecord_stamps host parsedData file (environmentalData (app c)) c)
    as (_ & _ & Himage & _).
  fold record in Himage. fold url in Himage. rewrite Himage.
  unfold truthy, truthyString. now destruct (String.eqb url "").
Qed.

(** X12. [submitAnalysis] never updates the active plant it works from: it
    leaves the plant, the image and the form data as they are, so a second
    call made right after the first sends the engine the same request
    again, with the same previous record, whatever the first call added to
    the store. *)
Theorem X12_second_call_repeats_the_request (host : Host) (c : Config)
    (file : File) (plant : PlantProfile) :
  imageFile (app c) = Some file ->
  activePlant (app c) = Some plant ->
  let once := submitAnalysis host c in
  let twice := submitAnalysis host once in
  let request :=
    mkRequest file (environmentalData (app c)) (previousAnalysisOf plant) in
  activePlant (app once) = Some plant
  /\ imageFile (app once) = Some file
  /\ environmentalData (app once) = environmentalData (app c)
  /\ requests (world twice) = (requests (world c) ++ [request; request])%list.
Proof.
  intros Hf Hp once twice request.
  assert (Hkept : activePlant (app once) = Some plant
                  /\ imageFile (app once) = Some file
                  /\ environmentalData (app once) = environmentalData (app c)).
  { unfold once. rewrite (submitAnalysis_started host c file plant Hf Hp).
    match goal with
    | |- context [settle host ?a ?c0] =>
        destruct (settle_keeps_cells host a c0) as (-> & -> & _ & -> & _)
    end.
    cbn. auto. }
  destruct Hkept as (Hp1 & Hf1 & He1).
  split; [exact Hp1|]. split; [exact Hf1|]. split; [exact He1|].
  unfold twice. rewrite (submitAnalysis_started host once file plant Hf1 Hp1).
  rewrite settle_requests. cbn. rewrite He1.
  unfold once at 1. rewrite (submitAnalysis_started host c file plant Hf Hp).
  rewrite settle_requests. cbn. now rewrite <- app_assoc.
Qed.

(** *** Calls suspended side by side *)

Lemma holdsStreamOf_later (host : Host) (log extra : list Request) (a : Attempt) :
  holdsStreamOf host log a -> holdsStreamOf host (log ++ extra) a.
Proof.
  intros (n & Hn & Htext & Hend). exists n. cbv zeta. split; [|now split].
  rewrite nth_error_app1; [exact Hn|].
  apply nth_error_Some. congruence.
Qed.

Lemma Forall_replaceAt (P : Attempt -> Prop) (i : nat) (a' : option Attempt)
    (l : list Attempt) :
  Forall P l ->
  match a' with Some a => P a | None => True end ->
  Forall P (replaceAt i a' l).
Proof.
  intros Hl Ha. revert i. induction Hl as [|x l Hx Hl IH]; intros [|i]; simpl.
  - constructor.
  - constructor.
  - destruct a' as [a|]; [constructor|]; assumption.
  - constructor; [exact Hx | apply IH].
Qed.

Lemma holdsStreamOf_begin (host : Host) (c c' : Config) (a : Attempt) :
  begin host c = (c', Some a) -> holdsStreamOf host (requests (world c')) a.
Proof.
  unfold begin.
  destruct (imageFile (app c)) as [file|]; [destruct (activePlant (app c)) as [plant|]|];
    try discriminate.
  intros [= <- <-]. exists (List.length (requests (world c))). cbn. split; [|split].
  - rewrite nth_error_app2 by lia. now rewrite Nat.sub_diag.
  - reflexivity.
  - reflexivity.
Qed.

Lemma holdsStreamOf_resume (host : Host) (log : list Request) (a a' : Attempt)
    (c c' : Config) :
  holdsStreamOf host log a ->
  resume host a c = (c', Some a') ->
  holdsStreamOf host log a'.
Proof.
  intros (n & Hn & Htext & Hend). unfold resume.
  destruct (att_pending a) as [|chunk rest] eqn:Hpending; [discriminate|].
  intros [= _ <-]. exists n. cbn in *. split; [exact Hn|]. split; [|exact Hend].
  now rewrite append_assoc.
Qed.

(** X13. Every call of [submitAnalysis] that is suspended, however many
    there are and whatever happened since it began, holds in its local
    [fullResponse] exactly the part received so far of the stream that
    answered its own request, sent with the image, the form data and the
    plant it captured; so when its stream has nothing more to deliver, what
    it hands to [JSON.parse] is the whole text of that stream, never mixed
    with the chunks of another call. *)
Theorem X13_suspended_call_holds_its_own_stream (host : Host) (s : System) :
  reachable host s ->
  Forall (holdsStreamOf host (requests (world (config s)))) (suspended s)
  /\ (forall a, In a (suspended s) -> att_pending a = [] ->
        exists n,
          nth_error (requests (world (config s))) n
          = Some (mkRequest (att_file a) (att_environment a)
                    (previousAnalysisOf (att_plant a)))
          /\ att_fullResponse a
             = concatAll
                 (chunks (analyzePlantImage host n (att_file a) (att_environment a)
                            (previousAnalysisOf (att_plant a))))).
Proof.
  intros Hreach.
  assert (Hinv : Forall (holdsStreamOf host (requests (world (config s)))) (suspended s)).
  { induction Hreach as [|s e _ IH].
    - constructor.
    - assert (Hold : Forall (holdsStreamOf host (requests (world (config (react host e s)))))
                       (suspended s)).
      { rewrite (react_requests host e s).
        eapply Forall_impl; [|exact IH].
        intros a. apply holdsStreamOf_later. }
      destruct e; cbn [react] in *.
      + exact Hold.
      + exact Hold.
      + exact Hold.
      + exact Hold.
      + destruct (addPlant host _ _) as [err|[newPlant profiles]]; exact Hold.
      + exact Hold.
      + destruct (begin host (config s)) as [c' [a|]] eqn:Hbegin; cbn [config suspended] in *;
          [|exact Hold].
        apply Forall_app. split; [exact Hold|].
        constructor; [|constructor]. exact (holdsStreamOf_begin host _ _ _ Hbegin).
      + destruct (nth_error (suspended s) i) as [a|] eqn:Hi; [|exact Hold].
        destruct (resume host a (config s)) as [c' a'] eqn:Hresume.
        cbn [config suspended] in *.
        apply Forall_replaceAt; [exact Hold|].
        destruct a' as [a'|]; [|exact I].
        apply (holdsStreamOf_resume host _ a a' (config s) c'); [|exact Hresume].
        rewrite Forall_forall in Hold. apply Hold. eapply nth_error_In. exact Hi. }
  split; [exact Hinv|].
  intros a Hin Hdone. rewrite Forall_forall in Hinv.
  destruct (Hinv a Hin) as (n & Hn & Htext & _). exists n. split; [exact Hn|].
  cbv zeta in Htext. rewrite Hdone in Htext. cbn in Htext.
  now rewrite append_nil_r in Htext.
Qed.

(** *** What no screen shows *)

(** X14. Outside the RESULT view nothing on screen depends on the error
    cell: the message that [submitAnalysis] sets when the check of line 112
    fails, and the message that a quick analysis sets when [addPlant]
    throws, leave what is rendered exactly as it was. *)
Theorem X14_errors_outside_result_view_are_not_shown (host : Host) (c : Config) :
  currentView (app c) <> RESULT ->
  (forall message, renderContent (setError message c) = renderContent c)
  /\ (imageFile (app c) = None \/ activePlant (app c) = None ->
      renderContent (submitAnalysis host c) = renderContent c)
  /\ (forall file err,
        addPlant host ("New Plant - " ++ Date_toLocaleString host (dateCalls (world c)))
          (plantProfiles (world c)) = inl err ->
        renderContent (handleQuickAnalysis host file c) = renderContent c).
Proof.
  intros Hview.
  assert (Hhidden : forall message, renderContent (setError message c) = renderContent c).
  { intros message. unfold renderContent. cbn.
    destruct (currentView (app c)); [reflexivity | reflexivity | contradiction]. }
  split; [exact Hhidden|]. split.
  - intros Hmissing. unfold submitAnalysis.
    destruct Hmissing as [-> | ->]; [|destruct (imageFile (app c))]; apply Hhidden.
  - intros file err Hthrows. unfold handleQuickAnalysis.
    change (plantProfiles (world (tickDate c))) with (plantProfiles (world c)).
    rewrite Hthrows.
    assert (Htick : forall message,
              renderContent (setError message (tickDate c)) = renderContent c).
    { intros message. rewrite <- (Hhidden message). reflexivity. }
    destruct err; apply Htick.
Qed.

(** *** Instances of the further properties *)

Lemma X6_witness :
  let host := hostWith tick (fun _ => mkStream basilChunks None) in
  viewsConsistent (config (streamingBasil host))
  /\ renderContent (config (streamingBasil host)) <> NothingRendered
  /\ (currentView (app (config (streamingBasil host))) = RESULT ->
      imageUrl (app (config (streamingBasil host))) <> None).
Proof.
  intros host.
  apply (X6_views_find_what_they_assume host (streamingBasil host)).
  unfold streamingBasil. repeat apply reachable_react. apply reachable_initial.
Defined.

Lemma X7_witness :
  let host := hostWith tick (fun _ => mkStream basilChunks None) in
  let c := ready basil [basil] in
  offered (renderContent c) Submit = true
  /\ exists file plant,
       imageFile (app c) = Some file
       /\ activePlant (app c) = Some plant
       /\ isLoading (app c) = false
       /\ currentView (app c) = ANALYSIS
       /\ exists c' a,
            begin host c = (c', Some a)
            /\ att_file a = file /\ att_plant a = plant
            /\ requests (world c')
               = (requests (world c)
                    ++ [mkRequest file (environmentalData (app c))
                          (previousAnalysisOf plant)])%list.
Proof.
  intros host c. split; [reflexivity|].
  apply (X7_enabled_start_button_passes_the_check host c). reflexivity.
Defined.

Lemma X8_witness :
  let host := hostWith tick (fun _ => mkStream basilChunks None) in
  isLoading (app (config (streamingBasil host))) = true
  /\ loadingMeansStreaming (config (streamingBasil host)).
Proof.
  intros host. split; [reflexivity|].
  refine (proj1 (X8_loading_only_in_result_view host (streamingBasil host) _)).
  unfold streamingBasil.
  apply reachableUI_react; [|reflexivity].
  apply reachableUI_react; [|reflexivity].
  apply reachableUI_react; [|reflexivity].
  apply reachableUI_initial.
Defined.

Lemma X9_witness :
  let host := hostWith tick (fun _ => mkStream basilChunks None) in
  let c := ready basil [basil] in
  renderContent (fst (resumed host 2 (begin host c)))
  = ResultScreen (option_map JString (imageUrl (app c)))
      (Spinner (concatAll (firstn 2 (chunks (streamOf host c leaf basil))))).
Proof.
  intros host c.
  apply (X9_spinner_shows_chunks_received host c leaf basil 2);
    [reflexivity | reflexivity | simpl; lia].
Defined.

Lemma X10_witness :
  let host := hostWith tick (fun _ => mkStream ["{"; "}"] (Some (Error ""))) in
  let c := ready basil [basil] in
  renderContent (submitAnalysis host c)
  = ResultScreen (option_map JString (imageUrl (app c))) SomethingWentWrong.
Proof.
  intros host c.
  apply (X10_failed_attempt_on_screen host c leaf basil (Error ""));
    [reflexivity | reflexivity | left; reflexivity].
Defined.

Lemma X11_witness :
  let host := hostWith tick (fun _ => mkStream basilChunks None) in
  let c := ready basil [basil] in
  let record := fst (newAnalysisRecord host basilParsed leaf (environmentalData (app c)) c) in
  let url := URL_createObjectURL host (urlCalls (world c)) leaf in
  renderContent (submitAnalysis host c)
  = ResultScreen
      (if String.eqb url "" then option_map JString (imageUrl (app c))
       else Some (JString url))
      (Prediction record).
Proof.
  intros host c.
  apply (X11_succeeded_attempt_on_screen host c leaf basil basilParsed []);
    [reflexivity | reflexivity | reflexivity | vm_compute; reflexivity | reflexivity].
Defined.

Lemma X12_witness :
  let host := hostWith tick (fun _ => mkStream basilChunks None) in
  let c := ready basil [basil] in
  let once := submitAnalysis host c in
  let twice := submitAnalysis host once in
  let request :=
    mkRequest leaf (environmentalData (app c)) (previousAnalysisOf basil) in
  activePlant (app once) = Some basil
  /\ imageFile (app once) = Some leaf
  /\ environmentalData (app once) = environmentalData (app c)
  /\ requests (world twice) = (requests (world c) ++ [request; request])%list.
Proof.
  intros host c.
  apply (X12_second_call_repeats_the_request host c leaf basil); reflexivity.
Defined.

Lemma X13_witness :
  let host := hostWith tick (fun _ => mkStream basilChunks None) in
  let s := react host (Resume 0) (streamingBasil host) in
  suspended s <> []
  /\ Forall (holdsStreamOf host (requests (world (config s)))) (suspended s).
Proof.
  intros host s. split; [discriminate|].
  refine (proj1 (X13_suspended_call_holds_its_own_stream host s _)).
  unfold s, streamingBasil. repeat apply reachable_react. apply reachable_initial.
Defined.

Lemma X14_witness :
  let c := initialConfig in
  renderContent (submitAnalysis refusingHost c) = renderContent c
  /\ renderContent (handleQuickAnalysis refusingHost leaf c) = renderContent c.
Proof.
  intros c.
  destruct (X14_errors_outside_result_view_are_not_shown refusingHost c)
    as (_ & Hsubmit & Hquick); [discriminate|].
  split.
  - apply Hsubmit. left. reflexivity.
  - apply (Hquick leaf (Error "Plant name is taken")). reflexivity.
Defined.
